(** * oslo-skoler: the client-side map script, embedded and verified

    The development follows [static/js/main.js] (the map application:
    markers, popups, search, navigation, cluster colouring) and the second,
    earlier copy of the application script, which has no search box and
    words its popup differently.  JavaScript values are modelled as follows.

    - Strings are [string]s holding the UTF-8 bytes of the text.  Substring
      and prefix tests agree on UTF-8 and on UTF-16 code units for
      well-formed text, so [includes] and [startsWith] are the byte-wise
      functions; [jsLength] recovers the number of UTF-16 code units.
    - Numbers are exact: integers as [Z], the JSON numbers of the data set
      as [Q] (a double is a dyadic rational).  The script divides twice.
      In the cluster colouring [sum / count] is only compared with 45, 50
      and 55; both operands are integers, the count is at most the length
      of an array, and rounding to a double cannot move such a quotient
      across one of those constants.  In the history table the sum of at
      most three whole scores is divided by their number and printed with
      one decimal; such a quotient is never half-way between two tenths,
      nor within rounding distance of such a point.  So both are computed
      on the exact quotient.
    - A subject score is a number, [null] or [undefined] ([Score]): the
      two copies of [formatScore] differ on [undefined].  Elsewhere the
      script treats [null] and [undefined] alike, and both are [None].
    - The results container is read back once ([innerHTML += ...]); what
      the browser's parser and serialiser make of the markup is the host
      operation [readInnerHTML].
    - Calls into Leaflet, the DOM and the console are recorded as a trace of
      [Effect]s next to the script's own global variables. *)

From Stdlib Require Import ZArith QArith Qround String Ascii List DecimalString Lia Lqa.
From Stdlib Require Import Sorting.Sorted Sorting.Permutation.
From stdpp Require Import gmap strings list.

Local Open Scope Z_scope.

(** ** JavaScript built-ins used by the script *)

Module Js.

(** The HTML templates of the script are full of double quotes.  They are
    written here with an apostrophe in place of every double quote (the
    templates contain no apostrophe of their own) and [html] puts the
    double quotes back. *)
Definition dquote : ascii := ascii_of_nat 34.
Definition apostrophe : ascii := ascii_of_nat 39.

Fixpoint html (s : string) : string :=
  match s with
  | EmptyString => EmptyString
  | String c s' =>
      String (if Ascii.eqb c apostrophe then dquote else c) (html s')
  end.

(** [s.startsWith(p)] *)
Fixpoint startsWith (s p : string) : bool :=
  match p, s with
  | EmptyString, _ => true
  | String _ _, EmptyString => false
  | String b p', String a s' => Ascii.eqb a b && startsWith s' p'
  end.

(** [s.endsWith(p)] *)
Fixpoint endsWith (s p : string) : bool :=
  String.eqb s p ||
  match s with
  | EmptyString => false
  | String _ s' => endsWith s' p
  end.

(** [s.includes(p)] *)
Fixpoint includes (s p : string) : bool :=
  startsWith s p ||
  match s with
  | EmptyString => false
  | String _ s' => includes s' p
  end.

(** [s.length]: UTF-16 code units of the text whose UTF-8 bytes are [s].
    A continuation byte (10xxxxxx) adds nothing, the lead byte of a
    four-byte sequence (11110xxx) stands for a surrogate pair. *)
Definition codeUnits (c : ascii) : nat :=
  let n := nat_of_ascii c in
  if (n <? 128)%nat then 1%nat
  else if (n <? 192)%nat then 0%nat
  else if (n <? 240)%nat then 1%nat
  else 2%nat.

Fixpoint jsLength (s : string) : nat :=
  match s with
  | EmptyString => 0%nat
  | String c s' => (codeUnits c + jsLength s')%nat
  end.

(** Text made of ASCII characters only. *)
Fixpoint isAscii (s : string) : bool :=
  match s with
  | EmptyString => true
  | String c s' => (nat_of_ascii c <? 128)%nat && isAscii s'
  end.

(** [String(n)] for an integer [n]. *)
Definition numberToString (n : Z) : string :=
  NilZero.string_of_int (Z.to_int n).

(** [x < y] and [x >= y] on numbers. *)
Definition ltb (x y : Q) : bool := negb (Qle_bool y x).
Definition geb (x y : Q) : bool := Qle_bool y x.

(** [x.toFixed(1)] (ECMA-262, Number.prototype.toFixed, below 1e21): the
    integer [n] with [n / 10] closest to [x], the larger one on a tie;
    its digits, padded to two, with a point before the last one. *)
Definition tenths (x : Q) : Z := Qfloor (x * 10 + (1 # 2))%Q.

Definition toFixed1_nonneg (x : Q) : string :=
  let n := tenths x in
  numberToString (n / 10) +:+ "." +:+ numberToString (n mod 10).

Definition toFixed1 (x : Q) : string :=
  if ltb x 0%Q then "-" +:+ toFixed1_nonneg (- x)%Q else toFixed1_nonneg x.

(** [array.join('')] *)
Definition join (parts : list string) : string :=
  fold_right String.append "" parts.

End Js.

(** ** Data model: the records of [school-data.json] *)

(** A subject score as the script reads it from a record: a whole number
    of scale points, [null], or [undefined] when the record has no such
    key. *)
Inductive Score :=
| Undefined
| Null
| Points (n : Z).

(** The number of a score that is neither [null] nor [undefined]. *)
Definition points (score : Score) : option Z :=
  match score with
  | Points n => Some n
  | Null | Undefined => None
  end.

Record HistoryEntry := {
  h_year : string;
  h_engelsk : Score;
  h_lesing : Score;
  h_regning : Score
}.

Record School := {
  name : string;
  kommune : string;
  schoolType : string;
  lat : Q;
  lng : Q;
  engelsk : Score;
  lesing : Score;
  regning : Score;
  average : option Q;
  validScoresCount : Z;
  hasData : bool;
  color : option string;
  history : list HistoryEntry
}.

(** A Leaflet marker as the script uses it: the bound popup markup, the icon
    size, and the two properties the script adds ([marker.schoolData] and
    [marker.options.fillColor]). *)
Record Marker := {
  schoolData : School;
  fillColor : option string;
  popupContent : string;
  iconSize : Z
}.

(** JavaScript truthiness of a value that is a string or absent. *)
Definition truthy (v : option string) : bool :=
  match v with
  | Some s => negb (String.eqb s "")
  | None => false
  end.

(** The string held by a value known to be truthy. *)
Definition text (v : option string) : string :=
  match v with
  | Some s => s
  | None => ""
  end.

(** ** Cluster colouring ([iconCreateFunction] in [initMap]) *)

Module Cluster.

Definition red : string := "#d73027".
Definition orange : string := "#fc8d59".
Definition lightGreen : string := "#91cf60".
Definition darkGreen : string := "#1a9850".
Definition gray : string := "#999999".

(** The [if]/[else if] chain that recovers an average from a colour. *)
Definition avgOfColor (color : string) : Z :=
  if String.eqb color red then 42
  else if String.eqb color orange then 47
  else if String.eqb color lightGreen then 52
  else if String.eqb color darkGreen then 57
  else if String.eqb color gray then -1
  else 50.

(** The body of [markers.forEach], acting on the pair [sum], [count]. *)
Definition visit (acc : Z * Z) (marker : Marker) : Z * Z :=
  let '(sum, count) := acc in
  if truthy (fillColor marker) then
    let color := text (fillColor marker) in
    let avg := avgOfColor color in
    if negb (avg =? -1) then (sum + avg, count + 1) else (sum, count)
  else (sum, count).

Definition totals (markers : list Marker) : Z * Z :=
  fold_left visit markers (0, 0).

Definition averageOf (sum count : Z) : Q :=
  if 0 <? count then (inject_Z sum / inject_Z count)%Q else 0%Q.

(** The [color] variable at the end of the function. *)
Definition colorOfTotals (sum count : Z) : string :=
  let average := averageOf sum count in
  if 0 <? count then
    if Js.ltb average 45%Q then red
    else if Js.geb average 45%Q && Js.ltb average 50%Q then orange
    else if Js.geb average 50%Q && Js.ltb average 55%Q then lightGreen
    else if Js.geb average 55%Q then darkGreen
    else gray
  else gray.

Definition clusterColor (markers : list Marker) : string :=
  let '(sum, count) := totals markers in colorOfTotals sum count.

Definition sizeClass (childCount : Z) : string :=
  if childCount <? 10 then "small"
  else if childCount <? 100 then "medium" else "large".

Record DivIcon := {
  icon_html : string;
  icon_className : string;
  icon_size : Z * Z
}.

Definition iconCreateFunction (markers : list Marker) : DivIcon :=
  let color := clusterColor markers in
  let childCount := Z.of_nat (length markers) in
  {| icon_html :=
       Js.html "<div style='background-color: " +:+ color +:+
       Js.html "; width: 100%; height: 100%; border-radius: 50%; display: flex; align-items: center; justify-content: center;'><span style='color: white; font-weight: bold;'>" +:+
       Js.numberToString childCount +:+ "</span></div>";
     icon_className := "marker-cluster marker-cluster-" +:+ sizeClass childCount;
     icon_size := (40, 40) |}.

End Cluster.

(** ** Errors and the record of outside calls *)

(** What a [throw] or a rejected promise carries. *)
Inductive JsError :=
| HttpError (status : Z)
| ParseError
| NetworkError
| TypeError.

Inductive Completion (A : Type) :=
| Normal (a : A)
| Abrupt (e : JsError).
Arguments Normal {A} a.
Arguments Abrupt {A} e.

(** ** Popup markup ([createPopupContent]) *)

Module Popup.

(** [formatScore]: the placeholder for a score that is [null] or
    [undefined], else the score. *)
Definition formatScore (score : Score) : string :=
  match score with
  | Null | Undefined => "*"
  | Points n => Js.numberToString n
  end.

(** The [currentScores] constant.  [school.average.toFixed(1)] throws a
    TypeError when the average is [null]. *)
Definition currentScores (school : School) : Completion string :=
  if hasData school then
    match average school with
    | None => Abrupt TypeError
    | Some avg =>
        Normal ("<b>Engelsk:</b> " +:+ formatScore (engelsk school) +:+ "&nbsp;&nbsp;
           <b>Lesing:</b> " +:+ formatScore (lesing school) +:+ "&nbsp;&nbsp;
           <b>Regning:</b> " +:+ formatScore (regning school) +:+ "<br>
           <b>Snitt:</b> " +:+ Js.toFixed1 avg +:+ " <small>(" +:+
                Js.numberToString (validScoresCount school) +:+ " fag)</small>")
    end
  else
    Normal (Js.html "<b>Engelsk:</b> *&nbsp;&nbsp;<b>Lesing:</b> *&nbsp;&nbsp;<b>Regning:</b> *<br>
           <i style='color:#888'>Ingen data tilgjengelig</i>").

(** The present scores of a history row and their mean. *)
Definition presentScores (h : HistoryEntry) : list Z :=
  omap points [h_engelsk h; h_lesing h; h_regning h].

Definition sumScores (scores : list Z) : Z :=
  fold_left (fun a b => a + b) scores 0.

Definition rowAverage (h : HistoryEntry) : string :=
  let scores := presentScores h in
  if (0 <? length scores)%nat
  then Js.toFixed1 (inject_Z (sumScores scores) / inject_Z (Z.of_nat (length scores)))%Q
  else "*".

Definition historyRow (h : HistoryEntry) : string :=
  "<tr>
                <td>" +:+ h_year h +:+ "</td>
                <td>" +:+ formatScore (h_engelsk h) +:+ "</td>
                <td>" +:+ formatScore (h_lesing h) +:+ "</td>
                <td>" +:+ formatScore (h_regning h) +:+ "</td>
                <td>" +:+ rowAverage h +:+ "</td>
            </tr>".

Definition historyHtml (school : School) : string :=
  if (0 <? length (history school))%nat then
    let rows := Js.join (map historyRow (rev (history school))) in
    Js.html "
            <div class='popup-history'>
                <b>Historikk</b>
                <table class='popup-history-table'>
                    <thead>
                        <tr><th>År</th><th>Eng</th><th>Les</th><th>Reg</th><th>Snitt</th></tr>
                    </thead>
                    <tbody>" +:+ rows +:+ "</tbody>
                </table>
            </div>"
  else "".

(** [window.SCHOOL_DATA_YEAR || ''] *)
Definition yearLabel (year : option string) : string :=
  if truthy year then text year else "".

Definition createPopupContent (year : option string) (school : School)
  : Completion string :=
  match currentScores school with
  | Abrupt e => Abrupt e
  | Normal scores =>
      Normal (Js.html "
        <div class='popup-school'>
            <div class='popup-header'>
                <span class='popup-name'>" +:+ name school +:+ Js.html "</span>
                <span class='popup-year'>" +:+ yearLabel year +:+ Js.html "</span>
            </div>
            <div class='popup-kommune'>" +:+ kommune school +:+ Js.html "</div>
            <div class='popup-current'>" +:+ scores +:+ "</div>
            " +:+ historyHtml school +:+ "
        </div>")
  end.

End Popup.

(** The same function in the earlier copy of the script (no history table,
    longer labels). *)
Module EarlyPopup.

(** [formatScore] of the earlier copy tests [score === null] only: an
    [undefined] score is interpolated as the text "undefined". *)
Definition formatScore (score : Score) : string :=
  match score with
  | Null => "*"
  | Undefined => "undefined"
  | Points n => Js.numberToString n
  end.

Definition createPopupContent (school : School) : Completion string :=
  if hasData school then
    match average school with
    | None => Abrupt TypeError
    | Some avg =>
        Normal ("
            <b>" +:+ name school +:+ "</b><br>
            <b>Kommune:</b> " +:+ kommune school +:+ "<br>
            <br>
            <b>Engelsk:</b> " +:+ formatScore (engelsk school) +:+ "<br>
            <b>Lesing:</b> " +:+ formatScore (lesing school) +:+ "<br>
            <b>Regning:</b> " +:+ formatScore (regning school) +:+ "<br>
            <b>Gjennomsnitt:</b> " +:+ Js.toFixed1 avg +:+ " (basert på " +:+
                Js.numberToString (validScoresCount school) +:+ " fag)
        ")
    end
  else
    Normal ("
            <b>" +:+ name school +:+ "</b><br>
            <b>Kommune:</b> " +:+ kommune school +:+ "<br>
            <br>
            <b>Engelsk:</b> *<br>
            <b>Lesing:</b> *<br>
            <b>Regning:</b> *<br>
            <b>Status:</b> <i>Ingen data tilgjengelig</i>
        ").

End EarlyPopup.

(** ** Search ([performSearch] and its helpers) *)

(** String operations whose result depends on Unicode tables, on the
    browser's locale or on its HTML parser are taken from the host. *)
Class Host := {
  (** [s.toLowerCase()] *)
  toLowerCase : string -> string;
  (** [a.localeCompare(b)]: negative, zero or positive *)
  localeCompare : string -> string -> Z;
  (** [s.trim()] *)
  trim : string -> string;
  (** [subject.replace(new RegExp('(' + literal + ')', 'gi'), before + '$1' + after)]
      for a pattern that matches the text [literal] itself *)
  replaceIgnoreCase : string -> string -> string -> string -> string;
  (** what [container.innerHTML] reads after [container.innerHTML = markup]:
      the markup parsed into nodes and the nodes written out again *)
  readInnerHTML : string -> string
}.

(** A host for plain ASCII text, used to run the script on examples:
    lower-casing of the letters A-Z, comparison byte by byte, trimming of
    spaces, no highlighting, and markup read back as it was written. *)
Module AsciiHost.

Definition lowerChar (c : ascii) : ascii :=
  let n := nat_of_ascii c in
  if ((65 <=? n) && (n <=? 90))%nat then ascii_of_nat (n + 32) else c.

Fixpoint lower (s : string) : string :=
  match s with
  | EmptyString => EmptyString
  | String c s' => String (lowerChar c) (lower s')
  end.

Fixpoint compareBytes (a b : string) : Z :=
  match a, b with
  | EmptyString, EmptyString => 0
  | EmptyString, String _ _ => -1
  | String _ _, EmptyString => 1
  | String x a', String y b' =>
      if (nat_of_ascii x <? nat_of_ascii y)%nat then -1
      else if (nat_of_ascii y <? nat_of_ascii x)%nat then 1
      else compareBytes a' b'
  end.

Fixpoint dropSpaces (s : string) : string :=
  match s with
  | String c s' => if Ascii.eqb c " " then dropSpaces s' else s
  | EmptyString => EmptyString
  end.

Definition reverse (s : string) : string :=
  string_of_list_ascii (rev (list_ascii_of_string s)).

Definition trimSpaces (s : string) : string :=
  reverse (dropSpaces (reverse (dropSpaces s))).

Definition asciiHost : Host :=
  {| toLowerCase := lower;
     localeCompare := compareBytes;
     trim := trimSpaces;
     replaceIgnoreCase := fun _ _ _ subject => subject;
     readInnerHTML := fun markup => markup |}.

End AsciiHost.

(** What the language guarantees of the host operations and the sort
    relies on: [localeCompare] is a consistent comparator (a total
    preorder), and lower-casing ASCII text touches the letters A-Z only. *)
Class HostLaws (host : Host) : Prop := {
  localeCompare_total :
    forall a b : string, 0 < localeCompare a b -> localeCompare b a <= 0;
  localeCompare_trans :
    forall a b c : string,
      localeCompare a b <= 0 -> localeCompare b c <= 0 -> localeCompare a c <= 0;
  toLowerCase_ascii :
    forall s : string, Js.isAscii s = true -> toLowerCase s = AsciiHost.lower s
}.

Module Search.
Section WithHost.
Context {host : Host}.

(** [escapeHtml]: the text is stored as a text node and read back as
    markup; serialising a text node replaces the ampersand, the
    no-break space (bytes C2 A0) and the two angle brackets. *)
Fixpoint escapeHtml (text : string) : string :=
  match text with
  | EmptyString => EmptyString
  | String c rest =>
      if Ascii.eqb c "&" then "&amp;" +:+ escapeHtml rest
      else if Ascii.eqb c "<" then "&lt;" +:+ escapeHtml rest
      else if Ascii.eqb c ">" then "&gt;" +:+ escapeHtml rest
      else
        match rest with
        | String c2 rest2 =>
            if Ascii.eqb c (ascii_of_nat 194) && Ascii.eqb c2 (ascii_of_nat 160)
            then "&nbsp;" +:+ escapeHtml rest2
            else String c (escapeHtml rest)
        | EmptyString => String c EmptyString
        end
  end.

(** [highlightMatch]: [escapeRegex] makes the pattern match the query
    literally. *)
Definition highlightMatch (text query : string) : string :=
  replaceIgnoreCase query (Js.html "<span class='search-result-highlight'>")
    "</span>" (escapeHtml text).

(** The predicate of [schoolsData.filter]. *)
Definition isMatch (queryLower : string) (school : School) : bool :=
  Js.includes (toLowerCase (name school)) queryLower.

(** The comparator handed to [matchingSchools.sort]. *)
Definition compareSchools (queryLower : string) (a b : School) : Z :=
  let aStartsWith := Js.startsWith (toLowerCase (name a)) queryLower in
  let bStartsWith := Js.startsWith (toLowerCase (name b)) queryLower in
  if aStartsWith && negb bStartsWith then -1
  else if negb aStartsWith && bStartsWith then 1
  else localeCompare (name a) (name b).

(** [Array.prototype.sort] with a comparator.  For a consistent comparator
    the language fixes the result: the stable sorted arrangement, which
    insertion from the right computes. *)
Fixpoint insertBy {A} (cmp : A -> A -> Z) (x : A) (l : list A) : list A :=
  match l with
  | [] => [x]
  | y :: l' => if 0 <? cmp x y then y :: insertBy cmp x l' else x :: y :: l'
  end.

Definition arraySort {A} (cmp : A -> A -> Z) (l : list A) : list A :=
  fold_right (insertBy cmp) [] l.

(** The [matchingSchools] array after filtering and sorting. *)
Definition matchingSchools (query : string) (schoolsData : list School)
  : list School :=
  let queryLower := toLowerCase query in
  arraySort (compareSchools queryLower)
    (List.filter (fun school => isMatch queryLower school) schoolsData).

Definition maxResults : nat := 10.

(** [matchingSchools.slice(0, maxResults)] *)
Definition resultsToShow (matching : list School) : list School :=
  firstn maxResults matching.

(** One element of [resultsToShow.map(...)]. *)
Definition resultRow (query : string) (school : School) : string :=
  let highlightedName := highlightMatch (name school) query in
  Js.html "
                <div class='search-result-item' data-school-name='" +:+ escapeHtml (name school) +:+
  Js.html "' data-school-kommune='" +:+ escapeHtml (kommune school) +:+ Js.html "'>
                    <div class='search-result-name'>" +:+ highlightedName +:+ Js.html "</div>
                    <div class='search-result-kommune'>" +:+ escapeHtml (kommune school) +:+ "</div>
                </div>
            ".

Definition resultRows (query : string) (matching : list School) : list string :=
  map (resultRow query) (resultsToShow matching).

(** The line appended when there are more matches than rows. *)
Definition moreResults (total : nat) : string :=
  Js.html "
                <div class='no-results' style='font-style: normal; font-size: 12px;'>
                    Viser " +:+ Js.numberToString (Z.of_nat maxResults) +:+ " av " +:+
  Js.numberToString (Z.of_nat total) +:+ " resultater
                </div>
            ".

Definition noResults : string :=
  Js.html "<div class='no-results'>Ingen skoler funnet</div>".

(** The markup last written into the results container.  The rows are
    written first; with more matches than rows, [innerHTML += ...] reads
    the container back and writes what it read with the line appended. *)
Definition resultsMarkup (query : string) (matching : list School) : string :=
  if (0 <? length matching)%nat then
    let rows := Js.join (resultRows query matching) in
    if (maxResults <? length matching)%nat
    then readInnerHTML rows +:+ moreResults (length matching)
    else rows
  else noResults.

(** The search box: the input's text, the clear button, and the results
    container with the markup last written to it. *)
Record SearchUi := {
  inputValue : string;
  clearVisible : bool;
  resultsHtml : string;
  resultsVisible : bool
}.

Definition performSearch (query : string) (schoolsData : list School)
    (ui : SearchUi) : SearchUi :=
  {| inputValue := inputValue ui;
     clearVisible := clearVisible ui;
     resultsHtml := resultsMarkup query (matchingSchools query schoolsData);
     resultsVisible := true |}.

(** The [input] event handler installed by [initializeSearch]. *)
Definition onInput (value : string) (schoolsData : list School)
    (ui : SearchUi) : SearchUi :=
  let query := trim value in
  let ui1 := {| inputValue := value;
                clearVisible := (0 <? Js.jsLength query)%nat;
                resultsHtml := resultsHtml ui;
                resultsVisible := resultsVisible ui |} in
  if (2 <=? Js.jsLength query)%nat then performSearch query schoolsData ui1
  else {| inputValue := value;
          clearVisible := clearVisible ui1;
          resultsHtml := "";
          resultsVisible := false |}.

End WithHost.
End Search.

(** ** The application state and the calls that leave the script *)

Record MapConfig := {
  center : Q * Q;
  zoom : Z
}.

(** The parsed [school-data.json]; [metadataYear] is
    [data.metadata.currentYear], absent when either part is missing.  The
    document is taken to have its [schools] array. *)
Record Dataset := {
  schools : list School;
  metadataYear : option string;
  mapConfig : option MapConfig
}.

(** How [fetch('static/js/school-data.json')] ends: the request itself
    fails, or a response arrives whose body parses as JSON or does not. *)
Inductive FetchOutcome :=
| FetchRejected
| Response (ok : bool) (status : Z) (body : option Dataset).

(** The circle marker of the earlier copy of the script. *)
Record CircleMarker := {
  circle_lat : Q;
  circle_lng : Q;
  circle_radius : Z;
  circle_color : option string;
  circle_fillColor : option string;
  circle_popup : string
}.

Inductive Task :=
| RetryInitializeSearch
| OpenPopupWhenSettled (target : Marker).

Inductive Effect :=
| ConsoleLog (text : string)
| ConsoleWarn (text : string)
| ConsoleError (parts : list string) (error : option JsError)
| Alert (text : string)
| SetView (lat lng : Q) (zoomLevel : Z)
| AddToCluster (marker : Marker)
| AddCircleToCluster (circle : CircleMarker)
| AddClusterToMap
| InstallSearchHandlers
| SetTimeout (task : Task) (delay : Z)
| ZoomToShowLayerThenOpenPopup (marker : Marker)
| OpenPopup (marker : Marker).

(** The script's global variables, whether the search box is in the
    document yet, and the calls made so far, oldest first. *)
Record App := {
  schoolsData : list School;
  schoolMarkers : gmap string (Marker * School);
  SCHOOL_DATA_YEAR : option string;
  searchBoxPresent : bool;
  trace : list Effect
}.

Definition initialApp (searchBox : bool) : App :=
  {| schoolsData := [];
     schoolMarkers := ∅;
     SCHOOL_DATA_YEAR := None;
     searchBoxPresent := searchBox;
     trace := [] |}.

(** A computation of the script: it may throw, and it changes the state. *)
Definition M (A : Type) : Type := App -> Completion A * App.

Definition ret {A} (a : A) : M A := fun app => (Normal a, app).

Definition throw {A} (e : JsError) : M A := fun app => (Abrupt e, app).

Definition bind {A B} (c : M A) (k : A -> M B) : M B :=
  fun app =>
    match c app with
    | (Normal a, app') => k a app'
    | (Abrupt e, app') => (Abrupt e, app')
    end.

Definition catch {A} (c : M A) (handler : JsError -> M A) : M A :=
  fun app =>
    match c app with
    | (Normal a, app') => (Normal a, app')
    | (Abrupt e, app') => handler e app'
    end.

Definition lift {A} (c : Completion A) : M A := fun app => (c, app).

(** The state after further calls have been made. *)
Definition logged (app : App) (effects : list Effect) : App :=
  {| schoolsData := schoolsData app;
     schoolMarkers := schoolMarkers app;
     SCHOOL_DATA_YEAR := SCHOOL_DATA_YEAR app;
     searchBoxPresent := searchBoxPresent app;
     trace := trace app ++ effects |}.

Definition emit (e : Effect) : M unit :=
  fun app => (Normal tt, logged app [e]).

Definition read {A} (f : App -> A) : M A := fun app => (Normal (f app), app).

Definition setSchoolsData (l : list School) : M unit :=
  fun app =>
    (Normal tt,
     {| schoolsData := l;
        schoolMarkers := schoolMarkers app;
        SCHOOL_DATA_YEAR := SCHOOL_DATA_YEAR app;
        searchBoxPresent := searchBoxPresent app;
        trace := trace app |}).

Definition setYear (y : option string) : M unit :=
  fun app =>
    (Normal tt,
     {| schoolsData := schoolsData app;
        schoolMarkers := schoolMarkers app;
        SCHOOL_DATA_YEAR := y;
        searchBoxPresent := searchBoxPresent app;
        trace := trace app |}).

Definition setSchoolMarker (key : string) (entry : Marker * School) : M unit :=
  fun app =>
    (Normal tt,
     {| schoolsData := schoolsData app;
        schoolMarkers := <[key := entry]> (schoolMarkers app);
        SCHOOL_DATA_YEAR := SCHOOL_DATA_YEAR app;
        searchBoxPresent := searchBoxPresent app;
        trace := trace app |}).

Notation "'let*' x := c1 'in' c2" := (bind c1 (fun x => c2))
  (at level 10, x name, c1 at level 100, c2 at level 200).
Notation "c1 >>> c2" := (bind c1 (fun _ => c2))
  (at level 90, right associativity).

(** [array.forEach(body)] *)
Fixpoint forEach {A} (body : A -> M unit) (l : list A) : M unit :=
  match l with
  | [] => ret tt
  | x :: l' => body x >>> forEach body l'
  end.

(** Calls that render: the view, markers and layers, popups and the timers
    that lead to them, and the search handlers. *)
Definition isRender (e : Effect) : bool :=
  match e with
  | SetView _ _ _ | AddToCluster _ | AddCircleToCluster _ | AddClusterToMap
  | SetTimeout _ _ | ZoomToShowLayerThenOpenPopup _ | OpenPopup _ => true
  | InstallSearchHandlers => true
  | ConsoleLog _ | ConsoleWarn _ | ConsoleError _ _ | Alert _ => false
  end.

(** ** Markers ([createSchoolMarker], [createSchoolMarkers]) *)

Module Markers.

(** The SVG markup of the icon plays no part below and is left out; the
    icon is represented by its size. *)
Definition createSchoolMarker (year : option string) (school : School)
  : Completion Marker :=
  match Popup.createPopupContent year school with
  | Abrupt e => Abrupt e
  | Normal popup =>
      let isUngdomsskole := String.eqb (schoolType school) "ungdomsskole" in
      Normal {| schoolData := school;
                fillColor := color school;
                popupContent := popup;
                iconSize := if isUngdomsskole then 40 else 30 |}
  end.

Definition uniqueKey (school : School) : string :=
  name school +:+ "|" +:+ kommune school.

Definition createSchoolMarkers (schools : list School) : M unit :=
  forEach (fun school =>
    let* year := read SCHOOL_DATA_YEAR in
    let* marker := lift (createSchoolMarker year school) in
    emit (AddToCluster marker) >>>
    setSchoolMarker (uniqueKey school) (marker, school)) schools.

End Markers.

(** ** Navigation ([zoomToSchool]) *)

Module Navigation.

(** The [for] loop over [markerCluster.getLayers()] with its [break]. *)
Fixpoint findMarker (schoolName schoolKommune : string)
    (allMarkers : list Marker) : option Marker :=
  match allMarkers with
  | [] => None
  | marker :: rest =>
      if String.eqb (name (schoolData marker)) schoolName &&
         String.eqb (kommune (schoolData marker)) schoolKommune
      then Some marker
      else findMarker schoolName schoolKommune rest
  end.

Definition zoomToSchool (schoolName schoolKommune : string)
    (allMarkers : list Marker) : M unit :=
  match findMarker schoolName schoolKommune allMarkers with
  | None =>
      emit (ConsoleError
              ["Marker not found for school:"; schoolName; "in kommune:"; schoolKommune]
              None)
  | Some targetMarker =>
      let school := schoolData targetMarker in
      emit (SetView (lat school) (lng school) 15) >>>
      emit (SetTimeout (OpenPopupWhenSettled targetMarker) 1000)
  end.

(** The timer callback; [onMap] is [map.hasLayer(targetMarker)]. *)
Definition openWhenSettled (onMap : bool) (targetMarker : Marker) : M unit :=
  if negb onMap then emit (ZoomToShowLayerThenOpenPopup targetMarker)
  else emit (OpenPopup targetMarker).

End Navigation.

(** ** Loading the data set ([loadSchoolData], [initializeSearch]) *)

Module Loader.

Definition initializeSearch : M unit :=
  let* present := read searchBoxPresent in
  if negb present then
    emit (ConsoleWarn "Search elements not found, retrying in 100ms...") >>>
    emit (SetTimeout RetryInitializeSearch 100)
  else emit InstallSearchHandlers.

(** The first [then]: the status check and [response.json()]. *)
Definition readResponse (outcome : FetchOutcome) : M Dataset :=
  match outcome with
  | FetchRejected => throw NetworkError
  | Response ok status body =>
      if negb ok then throw (HttpError status)
      else match body with
           | None => throw ParseError
           | Some data => ret data
           end
  end.

(** The second [then]. *)
Definition render (data : Dataset) : M unit :=
  emit (ConsoleLog ("Loaded data for " +:+
                    Js.numberToString (Z.of_nat (length (schools data))) +:+
                    " schools")) >>>
  (if truthy (metadataYear data) then setYear (metadataYear data) else ret tt) >>>
  setSchoolsData (schools data) >>>
  match mapConfig data with
  | Some cfg => emit (SetView (fst (center cfg)) (snd (center cfg)) (zoom cfg))
  | None => ret tt
  end >>>
  Markers.createSchoolMarkers (schools data) >>>
  emit AddClusterToMap >>>
  initializeSearch >>>
  emit (ConsoleLog "✓ Map initialized successfully!").

(** The [catch] at the end of the chain. *)
Definition onError (error : JsError) : M unit :=
  emit (ConsoleError ["Error loading school data:"] (Some error)) >>>
  emit (Alert "Failed to load school data. Please ensure school-data.json exists.").

Definition loadSchoolData (outcome : FetchOutcome) : M unit :=
  catch (let* data := readResponse outcome in render data) onError.

End Loader.

(** ** Loading in the earlier copy of the script *)

Module EarlyLoader.

Definition createSchoolMarker (school : School) : Completion CircleMarker :=
  match EarlyPopup.createPopupContent school with
  | Abrupt e => Abrupt e
  | Normal popup =>
      Normal {| circle_lat := lat school;
                circle_lng := lng school;
                circle_radius := 8;
                circle_color := color school;
                circle_fillColor := color school;
                circle_popup := popup |}
  end.

Definition createSchoolMarkers (schools : list School) : M unit :=
  forEach (fun school =>
    let* marker := lift (createSchoolMarker school) in
    emit (AddCircleToCluster marker)) schools.

Definition render (data : Dataset) : M unit :=
  emit (ConsoleLog ("Loaded data for " +:+
                    Js.numberToString (Z.of_nat (length (schools data))) +:+
                    " schools")) >>>
  match mapConfig data with
  | Some cfg => emit (SetView (fst (center cfg)) (snd (center cfg)) (zoom cfg))
  | None => ret tt
  end >>>
  createSchoolMarkers (schools data) >>>
  emit AddClusterToMap >>>
  emit (ConsoleLog "✓ Map initialized successfully!").

Definition loadSchoolData (outcome : FetchOutcome) : M unit :=
  catch (let* data := Loader.readResponse outcome in render data) Loader.onError.

End EarlyLoader.

(** The two calls made when loading fails. *)
Definition failureReport (error : JsError) : list Effect :=
  [ConsoleError ["Error loading school data:"] (Some error);
   Alert "Failed to load school data. Please ensure school-data.json exists."].

(** ** Sample records *)

Module Examples.

Definition school (n k : string) (a : option Q) (c : option string) : School :=
  {| name := n; kommune := k; schoolType := "barneskole";
     lat := 59 # 1; lng := 10 # 1;
     engelsk := Null; lesing := Points 52; regning := Points 54;
     average := a; validScoresCount := 2; hasData := true;
     color := c; history := [] |}.

(** A marker that carries the given fill colour. *)
Definition marker (c : option string) : Marker :=
  {| schoolData := school "Eide skole" "Grimstad" (Some (53 # 1)) c;
     fillColor := c;
     popupContent := "";
     iconSize := 30 |}.

Definition eide : School :=
  school "Eide skole" "Grimstad" (Some (53 # 1)) (Some "#91cf60").

(** Two reds and three oranges (mean 45), and a no-data marker. *)
Definition mixedCluster : list Marker :=
  [marker (Some "#d73027"); marker (Some "#d73027"); marker (Some "#999999");
   marker (Some "#fc8d59"); marker (Some "#fc8d59"); marker (Some "#fc8d59")].

Definition grayCluster : list Marker :=
  [marker (Some "#999999"); marker (Some "#999999")].

Definition nyOslo : School :=
  school "Ny Oslo Skole" "Oslo" (Some (53 # 1)) (Some "#91cf60").
Definition osloSkole : School :=
  school "Oslo Skole" "Oslo" (Some (48 # 1)) (Some "#fc8d59").
Definition bergen : School :=
  school "Bergen skole" "Bergen" (Some (57 # 1)) (Some "#1a9850").

Definition threeSchools : list School := [nyOslo; bergen; osloSkole].

(** Fifteen schools whose names all contain "skole". *)
Definition fifteenSchools : list School :=
  map (fun n => school ("Skole " +:+ Js.numberToString n) "Oslo"
                (Some (53 # 1)) (Some "#91cf60"))
      [1; 2; 3; 4; 5; 6; 7; 8; 9; 10; 11; 12; 13; 14; 15].

(** A school with two earlier years on record. *)
Definition entry2223 : HistoryEntry :=
  {| h_year := "2022-23"; h_engelsk := Points 50; h_lesing := Null;
     h_regning := Points 51 |}.

Definition withHistory : School :=
  {| name := "Eide skole"; kommune := "Grimstad"; schoolType := "ungdomsskole";
     lat := 58 # 1; lng := 8 # 1;
     engelsk := Points 52; lesing := Points 54; regning := Null;
     average := Some (53 # 1); validScoresCount := 2; hasData := true;
     color := Some "#91cf60";
     history :=
       [entry2223;
        {| h_year := "2023-24"; h_engelsk := Null; h_lesing := Null;
           h_regning := Null |}] |}.

(** Two schools of the same name in different municipalities. *)
Definition sentrumBergen : Marker :=
  {| schoolData := school "Sentrum skole" "Bergen" (Some (48 # 1)) (Some "#fc8d59");
     fillColor := Some "#fc8d59"; popupContent := ""; iconSize := 30 |}.
Definition sentrumOslo : Marker :=
  {| schoolData := school "Sentrum skole" "Oslo" (Some (57 # 1)) (Some "#1a9850");
     fillColor := Some "#1a9850"; popupContent := ""; iconSize := 40 |}.

Definition emptyUi : Search.SearchUi :=
  {| Search.inputValue := ""; Search.clearVisible := false;
     Search.resultsHtml := ""; Search.resultsVisible := false |}.

End Examples.

(** ** The colour bands as the specification words them *)

Module Spec.

Inductive Band := Red | Orange | LightGreen | DarkGreen | Gray.

(** The colour code a marker of each band carries. *)
Definition hex (b : Band) : string :=
  match b with
  | Red => "#d73027"
  | Orange => "#fc8d59"
  | LightGreen => "#91cf60"
  | DarkGreen => "#1a9850"
  | Gray => "#999999"
  end.

(** The inverse table: red 42, orange 47, light-green 52, dark-green 57;
    gray stands for no data and has no value. *)
Definition representative (b : Band) : option Z :=
  match b with
  | Red => Some 42
  | Orange => Some 47
  | LightGreen => Some 52
  | DarkGreen => Some 57
  | Gray => None
  end.

Definition total (values : list Z) : Z := foldr Z.add 0 values.

(** The mean of a list of values; there is none for the empty list. *)
Definition mean (values : list Z) : option Q :=
  match values with
  | [] => None
  | _ :: _ => Some (inject_Z (total values) / inject_Z (Z.of_nat (length values)))%Q
  end.

(** The score classifier: no data is gray, below 45 red, from 45 and
    below 50 orange, from 50 and below 55 light green, from 55 dark
    green. *)
Definition classify (a : option Q) : Band :=
  match a with
  | None => Gray
  | Some a =>
      if Qlt_le_dec a 45 then Red
      else if Qlt_le_dec a 50 then Orange
      else if Qlt_le_dec a 55 then LightGreen
      else DarkGreen
  end.

(** Cluster aggregation: drop the gray markers, take the mean of the
    representative values of the others, classify the mean. *)
Definition clusterBand (bands : list Band) : Band :=
  classify (mean (omap representative bands)).

(** A marker classified gray: its stored colour is the gray of no data. *)
Definition isGray (m : Marker) : bool :=
  match fillColor m with
  | Some c => String.eqb c (hex Gray)
  | None => false
  end.

(** The colours the cluster function knows. *)
Definition recognised (c : string) : Prop :=
  exists b : Band, c = hex b.

End Spec.

(** ** The rest of the script *)

(** [escapeRegex]: a backslash before each character of the class
    [[.*+?^${}()|[\]\\]], the syntax characters of the pattern grammar. *)
Module Regex.

Definition syntaxCharacters : string := ".*+?^${}()|[]\".

Definition isSpecial (c : ascii) : bool :=
  existsb (Ascii.eqb c) (list_ascii_of_string syntaxCharacters).

Fixpoint escapeRegex (text : string) : string :=
  match text with
  | EmptyString => EmptyString
  | String c rest =>
      if isSpecial c then String "\" (String c (escapeRegex rest))
      else String c (escapeRegex rest)
  end.

(** How the pattern grammar reads a pattern without operators: a backslash
    and a syntax character stand for that character, any other character
    for itself; a bare syntax character is an operator, and then the
    pattern is no literal. *)
Fixpoint literalOf (pattern : string) : option string :=
  match pattern with
  | EmptyString => Some EmptyString
  | String c rest =>
      if Ascii.eqb c "\" then
        match rest with
        | String d rest' =>
            if isSpecial d then option_map (String d) (literalOf rest')
            else None
        | EmptyString => None
        end
      else if isSpecial c then None
      else option_map (String c) (literalOf rest)
  end.

End Regex.

(** The legend panel ([legendOpen], [legendClose], [_legendOutsideHandler]):
    the panel's [style.display], the button's background colour, whether
    the document's click listener is registered, and how many zero-delay
    timers are waiting to register it.  The elements are taken to exist. *)
Module Legend.

Record Legend := {
  panelDisplay : string;
  buttonColor : string;
  outsideListener : bool;
  pendingTimers : nat
}.

Definition legendClose (l : Legend) : Legend :=
  {| panelDisplay := "none";
     buttonColor := "#4285f4";
     outsideListener := false;
     pendingTimers := pendingTimers l |}.

Definition legendOpen (l : Legend) : Legend :=
  if String.eqb (panelDisplay l) "block" then legendClose l
  else {| panelDisplay := "block";
          buttonColor := "#357ae8";
          outsideListener := outsideListener l;
          pendingTimers := S (pendingTimers l) |}.

(** The callback of [setTimeout(..., 0)]. *)
Definition timerFires (l : Legend) : Legend :=
  match pendingTimers l with
  | O => l
  | S n => {| panelDisplay := panelDisplay l;
              buttonColor := buttonColor l;
              outsideListener := true;
              pendingTimers := n |}
  end.

(** [_legendOutsideHandler]; [outsideBox] says that the legend box exists
    and does not contain the click's target. *)
Definition legendOutsideHandler (outsideBox : bool) (l : Legend) : Legend :=
  if outsideBox then legendClose l else l.

(** A click somewhere in the document. *)
Definition documentClick (outsideBox : bool) (l : Legend) : Legend :=
  if outsideListener l then legendOutsideHandler outsideBox l else l.

Inductive Event :=
| ButtonClicked
| CloseClicked
| TimerFired
| DocumentClicked (outsideBox : bool).

Definition step (l : Legend) (e : Event) : Legend :=
  match e with
  | ButtonClicked => legendOpen l
  | CloseClicked => legendClose l
  | TimerFired => timerFires l
  | DocumentClicked outsideBox => documentClick outsideBox l
  end.

End Legend.

(** Reading a trace: the markers handed to the cluster group, oldest
    first. *)
Fixpoint addedMarkers (effects : list Effect) : list Marker :=
  match effects with
  | [] => []
  | AddToCluster marker :: rest => marker :: addedMarkers rest
  | _ :: rest => addedMarkers rest
  end.

Fixpoint addedCircles (effects : list Effect) : list CircleMarker :=
  match effects with
  | [] => []
  | AddCircleToCluster circle :: rest => circle :: addedCircles rest
  | _ :: rest => addedCircles rest
  end.

(** A record whose popup can be built: it has an average if it says it
    has data. *)
Definition renderable (school : School) : bool :=
  match average school with
  | Some _ => true
  | None => negb (hasData school)
  end.

(** The markup of a completed popup. *)
Definition markupOf (c : Completion string) : string :=
  match c with
  | Normal s => s
  | Abrupt _ => ""
  end.

(** The marker [createSchoolMarker] returns for a renderable record. *)
Definition builtMarker (year : option string) (school : School) : Marker :=
  {| schoolData := school;
     fillColor := color school;
     popupContent := markupOf (Popup.createPopupContent year school);
     iconSize := if String.eqb (schoolType school) "ungdomsskole" then 40 else 30 |}.

Definition builtCircle (school : School) : CircleMarker :=
  {| circle_lat := lat school;
     circle_lng := lng school;
     circle_radius := 8;
     circle_color := color school;
     circle_fillColor := color school;
     circle_popup := markupOf (EarlyPopup.createPopupContent school) |}.

(** A marker that takes part in the cluster average: its fill colour is
    a non-empty string other than the gray of no data. *)
Definition countedInCluster (m : Marker) : bool :=
  truthy (fillColor m) && negb (String.eqb (text (fillColor m)) Cluster.gray).

(** [x] occurs in [s], and [y] occurs after it. *)
Definition occursBefore (x y s : string) : Prop :=
  exists a b c, s = a +:+ x +:+ b +:+ y +:+ c.

(** More sample records. *)
Module Samples.

(** A school without data, and the same record with stray scores. *)
Definition flosta : School :=
  {| name := "Flosta skole"; kommune := "Arendal"; schoolType := "barneskole";
     lat := 58 # 1; lng := 9 # 1;
     engelsk := Null; lesing := Null; regning := Null;
     average := None; validScoresCount := 0; hasData := false;
     color := Some "#999999"; history := [] |}.

Definition flostaWithScores : School :=
  {| name := "Flosta skole"; kommune := "Arendal"; schoolType := "barneskole";
     lat := 58 # 1; lng := 9 # 1;
     engelsk := Points 51; lesing := Null; regning := Points 49;
     average := Some (50 # 1); validScoresCount := 2; hasData := false;
     color := Some "#999999"; history := [] |}.

(** A record that says it has data and has no average. *)
Definition broken : School :=
  {| name := "Feil skole"; kommune := "Oslo"; schoolType := "barneskole";
     lat := 59 # 1; lng := 10 # 1;
     engelsk := Points 50; lesing := Null; regning := Null;
     average := None; validScoresCount := 1; hasData := true;
     color := Some "#91cf60"; history := [] |}.

Definition entry2324 : HistoryEntry :=
  {| h_year := "2023-24"; h_engelsk := Null; h_lesing := Null;
     h_regning := Null |}.

Definition closedLegend : Legend.Legend :=
  {| Legend.panelDisplay := ""; Legend.buttonColor := "";
     Legend.outsideListener := false; Legend.pendingTimers := 0 |}.

End Samples.

(** [a] stands before [b] in the list [l]. *)
Definition precedes {A : Type} (a b : A) (l : list A) : Prop :=
  exists l1 l2 l3, l = l1 ++ a :: l2 ++ b :: l3.

(** The no-break space, as UTF-8. *)
Definition nbsp : string :=
  String (ascii_of_nat 194) (String (ascii_of_nat 160) EmptyString).

(** The number of syntax characters in a text. *)
Fixpoint countSpecial (text : string) : nat :=
  match text with
  | EmptyString => 0%nat
  | String c rest =>
      ((if Regex.isSpecial c then 1 else 0) + countSpecial rest)%nat
  end.

(** The records up to the first one whose popup cannot be built. *)
Fixpoint renderablePrefix (schools : list School) : list School :=
  match schools with
  | [] => []
  | school :: rest =>
      if renderable school then school :: renderablePrefix rest else []
  end.

(** The marker table after the given records have been registered. *)
Definition registerAll (year : option string) (schools : list School)
    (table : gmap string (Marker * School)) : gmap string (Marker * School) :=
  fold_left
    (fun t school => <[Markers.uniqueKey school := (builtMarker year school, school)]> t)
    schools table.

(** The state after the loop has registered the given records. *)
Definition afterMarkers (app : App) (done : list School) : App :=
  {| schoolsData := schoolsData app;
     schoolMarkers := registerAll (SCHOOL_DATA_YEAR app) done (schoolMarkers app);
     SCHOOL_DATA_YEAR := SCHOOL_DATA_YEAR app;
     searchBoxPresent := searchBoxPresent app;
     trace := trace app ++
              map (fun school => AddToCluster (builtMarker (SCHOOL_DATA_YEAR app) school))
                  done |}.

(** The calls of a load, piece by piece. *)
Definition loadedLine (data : Dataset) : Effect :=
  ConsoleLog ("Loaded data for " +:+
              Js.numberToString (Z.of_nat (length (schools data))) +:+
              " schools").

Definition viewEffects (data : Dataset) : list Effect :=
  match mapConfig data with
  | Some cfg => [SetView (fst (center cfg)) (snd (center cfg)) (zoom cfg)]
  | None => []
  end.

Definition searchEffects (present : bool) : list Effect :=
  if present then [InstallSearchHandlers]
  else [ConsoleWarn "Search elements not found, retrying in 100ms...";
        SetTimeout RetryInitializeSearch 100].

Definition yearAfter (data : Dataset) (app : App) : option string :=
  if truthy (metadataYear data) then metadataYear data else SCHOOL_DATA_YEAR app.

(** The state in which a load with a parsed document leaves the script. *)
Definition loadedApp (data : Dataset) (app : App) : App :=
  let year := yearAfter data app in
  let prefix := renderablePrefix (schools data) in
  {| schoolsData := schools data;
     schoolMarkers := registerAll year prefix (schoolMarkers app);
     SCHOOL_DATA_YEAR := year;
     searchBoxPresent := searchBoxPresent app;
     trace :=
       trace app ++ [loadedLine data] ++ viewEffects data ++
       map (fun school => AddToCluster (builtMarker year school)) prefix ++
       (if forallb renderable (schools data)
        then [AddClusterToMap] ++ searchEffects (searchBoxPresent app) ++
             [ConsoleLog "✓ Map initialized successfully!"]
        else failureReport TypeError) |}.

(** Reading a trace: the texts of the alerts shown, oldest first. *)
Fixpoint alertsIn (effects : list Effect) : list string :=
  match effects with
  | [] => []
  | Alert text :: rest => text :: alertsIn rest
  | _ :: rest => alertsIn rest
  end.

(** A load that goes through: an ok response whose body parses and whose
    records can all be rendered. *)
Definition loadSucceeds (outcome : FetchOutcome) : bool :=
  match outcome with
  | Response true _ (Some data) => forallb renderable (schools data)
  | _ => false
  end.

(** The other handlers of the search box (installed by [initializeSearch]
    and by [performSearch]): the clear button, a click in the document, a
    click in the input, and a click on a result row (its navigation apart). *)
Module SearchBox.
Section WithHost.
Context {host : Host}.

Definition onClear (ui : Search.SearchUi) : Search.SearchUi :=
  {| Search.inputValue := "";
     Search.clearVisible := false;
     Search.resultsHtml := "";
     Search.resultsVisible := false |}.

(** [inContainer]: the click's target has an ancestor [.search-container]. *)
Definition onDocumentClick (inContainer : bool) (ui : Search.SearchUi)
  : Search.SearchUi :=
  if negb inContainer then
    {| Search.inputValue := Search.inputValue ui;
       Search.clearVisible := Search.clearVisible ui;
       Search.resultsHtml := Search.resultsHtml ui;
       Search.resultsVisible := false |}
  else ui.

Definition onInputClick (ui : Search.SearchUi) : Search.SearchUi :=
  if (2 <=? Js.jsLength (trim (Search.inputValue ui)))%nat then
    {| Search.inputValue := Search.inputValue ui;
       Search.clearVisible := Search.clearVisible ui;
       Search.resultsHtml := Search.resultsHtml ui;
       Search.resultsVisible := true |}
  else ui.

Definition onResultClick (ui : Search.SearchUi) : Search.SearchUi :=
  {| Search.inputValue := "";
     Search.clearVisible := false;
     Search.resultsHtml := Search.resultsHtml ui;
     Search.resultsVisible := false |}.

Inductive Event :=
| Typed (value : string)
| ClearClicked
| DocumentClicked (inContainer : bool)
| InputClicked
| ResultClicked.

Definition step (schoolsData : list School) (ui : Search.SearchUi) (e : Event)
  : Search.SearchUi :=
  match e with
  | Typed value => Search.onInput value schoolsData ui
  | ClearClicked => onClear ui
  | DocumentClicked inContainer => onDocumentClick inContainer ui
  | InputClicked => onInputClick ui
  | ResultClicked => onResultClick ui
  end.

End WithHost.
End SearchBox.

(** * Results *)

(** ** Strings *)

Section StringFacts.

Lemma append_assoc (a b c : string) : (a +:+ b) +:+ c = a +:+ b +:+ c.
Proof.
  induction a as [|x a IH]; [reflexivity|].
  change (String x ((a +:+ b) +:+ c) = String x (a +:+ b +:+ c)).
  f_equal. exact IH.
Qed.

Lemma append_empty (a : string) : a +:+ "" = a.
Proof.
  induction a as [|x a IH]; [reflexivity|].
  change (String x (a +:+ "") = String x a). f_equal. exact IH.
Qed.

Lemma append_cons (x : ascii) (a b : string) :
  String x a +:+ b = String x (a +:+ b).
Proof. reflexivity. Qed.

Lemma append_nil (b : string) : "" +:+ b = b.
Proof. reflexivity. Qed.

Lemma startsWith_iff (p : string) :
  forall s, Js.startsWith s p = true <-> exists post, s = p +:+ post.
Proof.
  induction p as [|b p IH]; intros s.
  - split; [intros _; exists s; reflexivity | intros _; now destruct s].
  - destruct s as [|a s]; cbn [Js.startsWith].
    + split; [discriminate|].
      intros [post H]. rewrite append_cons in H. discriminate H.
    + rewrite andb_true_iff, IH. split.
      * intros [Hab [post ->]]. apply Ascii.eqb_eq in Hab. subst a.
        exists post. reflexivity.
      * intros [post H]. rewrite append_cons in H. injection H as -> ->.
        split; [apply Ascii.eqb_refl | exists post; reflexivity].
Qed.

Lemma endsWith_iff (p s : string) :
  Js.endsWith s p = true <-> exists pre, s = pre +:+ p.
Proof.
  induction s as [|a s IH]; cbn [Js.endsWith].
  - rewrite orb_false_r, String.eqb_eq. split.
    + intros <-. exists "". reflexivity.
    + intros [[|x pre] H]; [exact H|].
      rewrite append_cons in H. discriminate H.
  - rewrite orb_true_iff, String.eqb_eq, IH. split.
    + intros [<- | [pre ->]]; [exists ""; reflexivity|].
      exists (String a pre). reflexivity.
    + intros [[|x pre] H]; [left; exact H|].
      rewrite append_cons in H. injection H as -> ->.
      right. exists pre. reflexivity.
Qed.

Lemma includes_iff (p s : string) :
  Js.includes s p = true <-> exists pre post, s = pre +:+ p +:+ post.
Proof.
  induction s as [|a s IH]; cbn [Js.includes].
  - rewrite orb_false_r, startsWith_iff. split.
    + intros [post H]. exists "", post. exact H.
    + intros [[|x pre] [post H]]; [exists post; exact H|].
      rewrite append_cons in H. discriminate H.
  - rewrite orb_true_iff, IH, startsWith_iff. split.
    + intros [[post H] | [pre [post H]]].
      * exists "", post. exact H.
      * exists (String a pre), post. rewrite H. reflexivity.
    + intros [[|x pre] [post H]].
      * left. exists post. exact H.
      * right. rewrite append_cons in H. injection H as -> ->.
        exists pre, post. reflexivity.
Qed.

Lemma includes_here (p post : string) : Js.includes (p +:+ post) p = true.
Proof. apply includes_iff. exists "", post. reflexivity. Qed.

Lemma includes_skip (pre s p : string) :
  Js.includes s p = true -> Js.includes (pre +:+ s) p = true.
Proof.
  rewrite !includes_iff. intros [x [post ->]].
  exists (pre +:+ x), post. now rewrite append_assoc.
Qed.

Lemma includes_left (s post p : string) :
  Js.includes s p = true -> Js.includes (s +:+ post) p = true.
Proof.
  rewrite !includes_iff. intros [pre [y ->]].
  exists pre, (y +:+ post). now rewrite !append_assoc.
Qed.

Lemma includes_trans (s t p : string) :
  Js.includes s t = true -> Js.includes t p = true -> Js.includes s p = true.
Proof.
  rewrite !includes_iff. intros [pre [post ->]] [pre' [post' ->]].
  exists (pre +:+ pre'), (post' +:+ post). now rewrite !append_assoc.
Qed.

Lemma startsWith_left (s post p : string) :
  Js.startsWith s p = true -> Js.startsWith (s +:+ post) p = true.
Proof.
  rewrite !startsWith_iff. intros [x ->]. exists (x +:+ post).
  now rewrite append_assoc.
Qed.

(** A value interpolated between two pieces of template text. *)
Lemma includes_slot (L A n B R : string) :
  Js.endsWith L A = true ->
  Js.startsWith R B = true ->
  Js.includes (L +:+ n +:+ R) (A +:+ n +:+ B) = true.
Proof.
  rewrite endsWith_iff, startsWith_iff. intros [pre ->] [post ->].
  apply includes_iff. exists pre, post. now rewrite !append_assoc.
Qed.

Lemma includes_join (parts : list string) (x p : string) :
  In x parts -> Js.includes x p = true -> Js.includes (Js.join parts) p = true.
Proof.
  intros Hin Hx. induction parts as [|y parts IH]; [destruct Hin|].
  cbn [Js.join fold_right]. destruct Hin as [->|Hin].
  - now apply includes_left.
  - apply includes_skip. exact (IH Hin).
Qed.

End StringFacts.

(** Finds an interpolated value in a template: skip the pieces before it,
    then match the text around it. *)
Ltac closed_text := vm_compute; reflexivity.

Ltac find_step :=
  match goal with
  | |- Js.includes (?L +:+ ?n +:+ ?R) (?A +:+ ?m +:+ ?B) = true =>
      constr_eq n m;
      refine (includes_slot L A n B R _ _);
      [ closed_text
      | lazymatch R with
        | ?r1 +:+ ?r2 => refine (startsWith_left r1 r2 B _); closed_text
        | _ => closed_text
        end ]
  | |- Js.includes (?q +:+ ?post) ?p = true =>
      constr_eq q p; exact (includes_here p post)
  | |- Js.includes (?pre +:+ ?s) ?p = true =>
      refine (includes_skip pre s p _)
  end.

(** Finds an interpolated value in a template: skip the pieces before it,
    then match the text around it. *)
Ltac find_in_template := repeat find_step.

(** ** Cluster colouring *)

Section ClusterFacts.
Import Cluster.

Lemma visit_band (m : Marker) (b : Spec.Band) (sum count : Z) :
  fillColor m = Some (Spec.hex b) ->
  visit (sum, count) m =
    match Spec.representative b with
    | Some v => (sum + v, count + 1)
    | None => (sum, count)
    end.
Proof.
  intros Hm. unfold visit. rewrite Hm. destruct b; reflexivity.
Qed.

Lemma fold_visit_bands (markers : list Marker) :
  forall (bands : list Spec.Band) (sum count : Z),
    map fillColor markers = map (fun b => Some (Spec.hex b)) bands ->
    fold_left visit markers (sum, count) =
      (sum + Spec.total (omap Spec.representative bands),
       count + Z.of_nat (length (omap Spec.representative bands))).
Proof.
  induction markers as [|m markers IH]; intros [|b bands] sum count Hmap;
    try discriminate.
  - cbn. f_equal; lia.
  - injection Hmap as Hm Hrest. cbn [fold_left].
    rewrite (visit_band m b sum count Hm).
    destruct b; cbn [Spec.representative];
      rewrite (IH bands _ _ Hrest); cbn; unfold Spec.total; f_equal; lia.
Qed.

Lemma totals_bands (markers : list Marker) (bands : list Spec.Band) :
  map fillColor markers = map (fun b => Some (Spec.hex b)) bands ->
  totals markers =
    (Spec.total (omap Spec.representative bands),
     Z.of_nat (length (omap Spec.representative bands))).
Proof.
  intros H. unfold totals. rewrite (fold_visit_bands markers bands 0 0 H).
  f_equal.
Qed.

Lemma ltb_true (x y : Q) : Js.ltb x y = true <-> (x < y)%Q.
Proof.
  unfold Js.ltb. rewrite negb_true_iff. split.
  - intros H. apply Qnot_le_lt. intros Hle.
    apply Qle_bool_iff in Hle. congruence.
  - intros H. destruct (Qle_bool y x) eqn:E; [|reflexivity].
    apply Qle_bool_iff in E. exfalso. exact (Qlt_not_le _ _ H E).
Qed.

Lemma ltb_false (x y : Q) : Js.ltb x y = false <-> (y <= x)%Q.
Proof.
  unfold Js.ltb. rewrite negb_false_iff. apply Qle_bool_iff.
Qed.

Lemma geb_true (x y : Q) : Js.geb x y = true <-> (y <= x)%Q.
Proof. apply Qle_bool_iff. Qed.

(** The colour chosen from the totals is the classifier's band of the
    exact quotient. *)
Lemma colorOfTotals_classify (sum count : Z) :
  0 < count ->
  colorOfTotals sum count =
    Spec.hex (Spec.classify (Some (inject_Z sum / inject_Z count)%Q)).
Proof.
  intros Hc. unfold colorOfTotals, averageOf.
  destruct (Z.ltb_spec 0 count) as [_|]; [|lia].
  set (a := (inject_Z sum / inject_Z count)%Q). unfold Spec.classify.
  destruct (Qlt_le_dec a 45) as [H45|H45].
  { apply ltb_true in H45. rewrite H45. reflexivity. }
  apply ltb_false in H45 as L45. rewrite L45.
  apply geb_true in H45 as G45. rewrite G45. cbn [andb].
  destruct (Qlt_le_dec a 50) as [H50|H50].
  { apply ltb_true in H50. rewrite H50. reflexivity. }
  apply ltb_false in H50 as L50. rewrite L50.
  apply geb_true in H50 as G50. rewrite G50. cbn [andb].
  destruct (Qlt_le_dec a 55) as [H55|H55].
  { apply ltb_true in H55. rewrite H55. reflexivity. }
  apply ltb_false in H55 as L55. rewrite L55.
  apply geb_true in H55 as G55. rewrite G55. reflexivity.
Qed.

End ClusterFacts.

Section ClusterResults.
Import Cluster.

Lemma icon_shows_colour (markers : list Marker) :
  Js.includes (icon_html (iconCreateFunction markers))
    ("background-color: " +:+ clusterColor markers +:+ ";") = true.
Proof.
  unfold iconCreateFunction. cbv zeta. cbn [icon_html]. find_in_template.
Qed.

(** C1. For a cluster whose markers carry the classifier's colours, the
    cluster colour is the band of the mean of the representative values
    (red 42, orange 47, light green 52, dark green 57) of its non-gray
    markers: red below 45, orange from 45 and below 50, light green from
    50 and below 55, dark green from 55, so that 45, 50 and 55 fall in
    the upper band. *)
Theorem cluster_colour_is_band_of_mean
    (markers : list Marker) (bands : list Spec.Band) :
  map fillColor markers = map (fun b => Some (Spec.hex b)) bands ->
  clusterColor markers = Spec.hex (Spec.clusterBand bands) /\
  Js.includes (icon_html (iconCreateFunction markers))
    ("background-color: " +:+ Spec.hex (Spec.clusterBand bands) +:+ ";") = true /\
  forall mean : Q,
    Spec.mean (omap Spec.representative bands) = Some mean ->
    ((mean < 45)%Q -> clusterColor markers = red) /\
    ((45 <= mean)%Q -> (mean < 50)%Q -> clusterColor markers = orange) /\
    ((50 <= mean)%Q -> (mean < 55)%Q -> clusterColor markers = lightGreen) /\
    ((55 <= mean)%Q -> clusterColor markers = darkGreen).
Proof.
  intros Hmap.
  assert (Hcol : clusterColor markers = Spec.hex (Spec.clusterBand bands)).
  { unfold clusterColor, Spec.clusterBand.
    rewrite (totals_bands markers bands Hmap).
    destruct (omap Spec.representative bands) as [|v values] eqn:E.
    - reflexivity.
    - rewrite colorOfTotals_classify by (cbn [length]; lia). reflexivity. }
  split; [exact Hcol|].
  split; [rewrite <- Hcol; apply icon_shows_colour|].
  intros mean Hmean. rewrite Hcol. unfold Spec.clusterBand.
  rewrite Hmean. unfold Spec.classify.
  destruct (Qlt_le_dec mean 45) as [L45|G45];
    [|destruct (Qlt_le_dec mean 50) as [L50|G50];
      [|destruct (Qlt_le_dec mean 55) as [L55|G55]]];
    repeat split; intros; try reflexivity; exfalso; lra.
Qed.

Lemma cluster_colour_witness :
  clusterColor Examples.mixedCluster = orange.
Proof.
  exact (proj1 (cluster_colour_is_band_of_mean Examples.mixedCluster
           [Spec.Red; Spec.Red; Spec.Gray; Spec.Orange; Spec.Orange; Spec.Orange]
           eq_refl)).
Defined.

(** Means of exactly 45, 50 and 55 fall in the upper band. *)
Example boundary_means :
  totals Examples.mixedCluster = (225, 5) /\
  clusterColor Examples.mixedCluster = orange /\
  totals (map Examples.marker
            [Some orange; Some orange; Some lightGreen; Some lightGreen; Some lightGreen])
    = (250, 5) /\
  clusterColor (map Examples.marker
            [Some orange; Some orange; Some lightGreen; Some lightGreen; Some lightGreen])
    = lightGreen /\
  totals (map Examples.marker
            [Some lightGreen; Some lightGreen; Some darkGreen; Some darkGreen; Some darkGreen])
    = (275, 5) /\
  clusterColor (map Examples.marker
            [Some lightGreen; Some lightGreen; Some darkGreen; Some darkGreen; Some darkGreen])
    = darkGreen.
Proof. repeat split; reflexivity. Qed.

Lemma visit_gray (m : Marker) (acc : Z * Z) :
  Spec.isGray m = true -> visit acc m = acc.
Proof.
  unfold Spec.isGray, visit. destruct acc as [sum count].
  destruct (fillColor m) as [c|]; [|discriminate].
  intros H. apply String.eqb_eq in H. subst c. reflexivity.
Qed.

Lemma fold_visit_without_gray (markers : list Marker) :
  forall acc : Z * Z,
    fold_left visit markers acc =
    fold_left visit (List.filter (fun m => negb (Spec.isGray m)) markers) acc.
Proof.
  induction markers as [|m markers IH]; intros acc; [reflexivity|].
  cbn [fold_left List.filter].
  destruct (Spec.isGray m) eqn:E; cbn [negb fold_left].
  - rewrite (visit_gray m acc E). apply IH.
  - apply IH.
Qed.

(** C2. The sum and the count of a cluster are those of the cluster
    without its gray markers, and a cluster of gray markers only has
    sum 0, count 0 and an icon with the gray background. *)
Theorem gray_markers_are_excluded (markers : list Marker) :
  totals markers =
    totals (List.filter (fun m => negb (Spec.isGray m)) markers) /\
  (forallb Spec.isGray markers = true ->
   totals markers = (0, 0) /\ clusterColor markers = gray /\
   Js.includes (icon_html (iconCreateFunction markers))
     "background-color: #999999;" = true).
Proof.
  assert (Hfilter : totals markers =
    totals (List.filter (fun m => negb (Spec.isGray m)) markers))
    by apply fold_visit_without_gray.
  split; [exact Hfilter|].
  intros Hall.
  assert (Hnone : List.filter (fun m => negb (Spec.isGray m)) markers = []).
  { clear Hfilter. induction markers as [|m markers IH]; [reflexivity|].
    cbn [forallb] in Hall. apply andb_true_iff in Hall as [Hm Hrest].
    cbn [List.filter]. rewrite Hm. cbn [negb]. exact (IH Hrest). }
  assert (Hzero : totals markers = (0, 0)) by (rewrite Hfilter, Hnone; reflexivity).
  assert (Hgray : clusterColor markers = gray)
    by (unfold clusterColor; rewrite Hzero; reflexivity).
  split; [exact Hzero|]. split; [exact Hgray|].
  pose proof (icon_shows_colour markers) as Hicon.
  rewrite Hgray in Hicon. exact Hicon.
Qed.

Lemma gray_markers_are_excluded_witness :
  totals Examples.grayCluster = (0, 0) /\
  clusterColor Examples.grayCluster = gray /\
  Js.includes (icon_html (iconCreateFunction Examples.grayCluster))
    "background-color: #999999;" = true.
Proof.
  exact (proj2 (gray_markers_are_excluded Examples.grayCluster) eq_refl).
Defined.

Lemma fold_visit_shift (markers : list Marker) :
  forall sum count : Z,
    fold_left visit markers (sum, count) =
    (sum + fst (totals markers), count + snd (totals markers)).
Proof.
  unfold totals. induction markers as [|m markers IH]; intros sum count.
  - cbn. f_equal; lia.
  - cbn [fold_left].
    destruct (visit (sum, count) m) as [s1 c1] eqn:E1.
    destruct (visit (0, 0) m) as [s0 c0] eqn:E0.
    rewrite (IH s1 c1), (IH s0 c0).
    assert (s1 = sum + s0 /\ c1 = count + c0) as [-> ->].
    { unfold visit in E1, E0.
      destruct (truthy (fillColor m));
        [destruct (negb (avgOfColor (text (fillColor m)) =? -1))|];
        inversion E1; inversion E0; subst; lia. }
    cbn [fst snd]. f_equal; lia.
Qed.

(** C9 as amended. A marker whose stored fill colour is a non-empty
    string other than the five known colours is given the value 50 and
    adds 50 to the sum and 1 to the count, wherever it stands in the
    cluster. *)
Theorem unknown_colour_counts_as_50
    (m : Marker) (c : string) (before after : list Marker) :
  fillColor m = Some c ->
  c <> "" ->
  ~ Spec.recognised c ->
  (forall sum count : Z, visit (sum, count) m = (sum + 50, count + 1)) /\
  totals (before ++ m :: after) =
    (fst (totals (before ++ after)) + 50, snd (totals (before ++ after)) + 1).
Proof.
  intros Hm Hne Hnot.
  assert (Hvisit : forall sum count : Z,
             visit (sum, count) m = (sum + 50, count + 1)).
  { intros sum count. unfold visit. rewrite Hm. cbn [truthy text].
    destruct (String.eqb_spec c "") as [->|_]; [congruence|]. cbn [negb].
    unfold avgOfColor.
    destruct (String.eqb_spec c red) as [->|_];
      [exfalso; apply Hnot; exists Spec.Red; reflexivity|].
    destruct (String.eqb_spec c orange) as [->|_];
      [exfalso; apply Hnot; exists Spec.Orange; reflexivity|].
    destruct (String.eqb_spec c lightGreen) as [->|_];
      [exfalso; apply Hnot; exists Spec.LightGreen; reflexivity|].
    destruct (String.eqb_spec c darkGreen) as [->|_];
      [exfalso; apply Hnot; exists Spec.DarkGreen; reflexivity|].
    destruct (String.eqb_spec c gray) as [->|_];
      [exfalso; apply Hnot; exists Spec.Gray; reflexivity|].
    reflexivity. }
  split; [exact Hvisit|].
  unfold totals at 1 2 3. rewrite !fold_left_app. cbn [fold_left].
  destruct (fold_left visit before (0, 0)) as [s c0].
  rewrite Hvisit, !fold_visit_shift. cbn [fst snd]. f_equal; lia.
Qed.

Lemma black_not_recognised : ~ Spec.recognised "#000000".
Proof. intros [b Hb]. destruct b; discriminate Hb. Qed.

Lemma unknown_colour_counts_as_50_witness :
  totals (Examples.grayCluster ++ Examples.marker (Some "#000000") :: Examples.mixedCluster)
  = (fst (totals (Examples.grayCluster ++ Examples.mixedCluster)) + 50,
     snd (totals (Examples.grayCluster ++ Examples.mixedCluster)) + 1).
Proof.
  refine (proj2 (unknown_colour_counts_as_50
            (Examples.marker (Some "#000000")) "#000000"
            Examples.grayCluster Examples.mixedCluster eq_refl _ _)).
  - discriminate.
  - exact black_not_recognised.
Defined.

(** C9 as stated fails for the empty string: it is none of the five
    colours, yet the marker that carries it is skipped. *)
Lemma empty_colour_is_skipped :
  fillColor (Examples.marker (Some "")) = Some "" /\
  ~ Spec.recognised "" /\
  visit (0, 0) (Examples.marker (Some "")) = (0, 0) /\
  visit (0, 0) (Examples.marker (Some "")) <> (0 + 50, 0 + 1).
Proof.
  split; [reflexivity|]. split.
  - intros [b Hb]. destruct b; discriminate Hb.
  - split; [reflexivity|]. discriminate.
Qed.

End ClusterResults.

(** ** Popup markup *)

Section PopupResults.

Lemma toFixed1_proper (a b : Q) : (a == b)%Q -> Js.toFixed1 a = Js.toFixed1 b.
Proof.
  intros H. unfold Js.toFixed1, Js.toFixed1_nonneg, Js.tenths, Js.ltb.
  assert (E1 : Qle_bool 0 a = Qle_bool 0 b) by now rewrite H.
  assert (E2 : Qfloor (a * 10 + (1 # 2)) = Qfloor (b * 10 + (1 # 2)))
    by (apply Qfloor_comp; now rewrite H).
  assert (E3 : Qfloor (- a * 10 + (1 # 2)) = Qfloor (- b * 10 + (1 # 2)))
    by (apply Qfloor_comp; now rewrite H).
  rewrite E1, E2, E3. reflexivity.
Qed.

Lemma popup_of_scores (year : option string) (school : School) (scores : string) :
  Popup.currentScores school = Normal scores ->
  exists popup,
    Popup.createPopupContent year school = Normal popup /\
    Js.includes popup scores = true.
Proof.
  intros H. unfold Popup.createPopupContent. rewrite H.
  eexists. split; [reflexivity|]. find_in_template.
Qed.

(** C3 as amended. For a record with data, average 53 and 2 valid
    subjects, whatever its subject scores, the popup of [main.js] shows
    the stored average and count as "Snitt: 53.0 (2 fag)"; the text
    "basert på 2 fag" is produced by the earlier copy of the function. *)
Theorem popup_average_and_count
    (year : option string) (school : School) (avg : Q) :
  hasData school = true ->
  average school = Some avg ->
  (avg == 53)%Q ->
  validScoresCount school = 2 ->
  (exists popup,
     Popup.createPopupContent year school = Normal popup /\
     Js.includes popup "<b>Snitt:</b> 53.0 <small>(2 fag)</small>" = true) /\
  (exists popup,
     EarlyPopup.createPopupContent school = Normal popup /\
     Js.includes popup "<b>Gjennomsnitt:</b> 53.0 (basert på 2 fag)" = true).
Proof.
  intros Hdata Havg H53 Hcount. split.
  - destruct (popup_of_scores year school
                ("<b>Engelsk:</b> " +:+ Popup.formatScore (engelsk school) +:+ "&nbsp;&nbsp;
           <b>Lesing:</b> " +:+ Popup.formatScore (lesing school) +:+ "&nbsp;&nbsp;
           <b>Regning:</b> " +:+ Popup.formatScore (regning school) +:+ "<br>
           <b>Snitt:</b> 53.0 <small>(2 fag)</small>"))
      as [popup [Hpopup Hin]].
    { unfold Popup.currentScores.
      rewrite Hdata, Havg, Hcount, (toFixed1_proper avg 53 H53). reflexivity. }
    exists popup. split; [exact Hpopup|].
    apply (includes_trans _ _ _ Hin).
    do 6 apply includes_skip. closed_text.
  - unfold EarlyPopup.createPopupContent.
    rewrite Hdata, Havg, Hcount, (toFixed1_proper avg 53 H53).
    eexists. split; [reflexivity|].
    do 10 apply includes_skip. closed_text.
Qed.

Lemma popup_average_and_count_witness :
  (exists popup,
     Popup.createPopupContent (Some "2024-25") Examples.eide = Normal popup /\
     Js.includes popup "<b>Snitt:</b> 53.0 <small>(2 fag)</small>" = true) /\
  (exists popup,
     EarlyPopup.createPopupContent Examples.eide = Normal popup /\
     Js.includes popup "<b>Gjennomsnitt:</b> 53.0 (basert på 2 fag)" = true).
Proof.
  apply (popup_average_and_count (Some "2024-25") Examples.eide (53 # 1));
    reflexivity.
Defined.

(** C3 as stated fails on [main.js]: the popup of a record with average
    53 and 2 valid subjects has "53.0" but not "basert på 2 fag". *)
Lemma main_popup_lacks_basert_paa :
  average Examples.eide = Some (53 # 1) /\
  validScoresCount Examples.eide = 2 /\
  exists popup,
    Popup.createPopupContent (Some "2024-25") Examples.eide = Normal popup /\
    Js.includes popup "53.0" = true /\
    Js.includes popup "basert på 2 fag" = false.
Proof.
  split; [reflexivity|]. split; [reflexivity|].
  eexists. split; [reflexivity|]. split; vm_compute; reflexivity.
Qed.

Lemma includes_char (a c : ascii) (s : string) :
  Js.includes (String a s) (String c "") =
  Ascii.eqb a c || Js.includes s (String c "").
Proof.
  cbn [Js.includes Js.startsWith]. destruct s; now rewrite andb_true_r.
Qed.

Lemma escapeHtml_no_brackets_upto (n : nat) :
  forall text : string,
    (String.length text <= n)%nat ->
    Js.includes (Search.escapeHtml text) "<" = false /\
    Js.includes (Search.escapeHtml text) ">" = false.
Proof.
  induction n as [|n IH]; intros text Hlen.
  - destruct text; [split; reflexivity | cbn in Hlen; lia].
  - destruct text as [|c rest]; [split; reflexivity|].
    cbn [String.length] in Hlen.
    assert (Hrest : Js.includes (Search.escapeHtml rest) "<" = false /\
                    Js.includes (Search.escapeHtml rest) ">" = false)
      by (apply IH; lia).
    destruct rest as [|c2 rest2].
    + cbn [Search.escapeHtml].
      destruct (Ascii.eqb c "&") eqn:E1; [split; reflexivity|].
      destruct (Ascii.eqb c "<") eqn:E2; [split; reflexivity|].
      destruct (Ascii.eqb c ">") eqn:E3; [split; reflexivity|].
      rewrite !includes_char, E2, E3. split; reflexivity.
    + assert (Hrest2 : Js.includes (Search.escapeHtml rest2) "<" = false /\
                       Js.includes (Search.escapeHtml rest2) ">" = false)
        by (apply IH; cbn [String.length] in Hlen; lia).
      remember (String c2 rest2) as rest eqn:Erest.
      cbn [Search.escapeHtml].
      destruct (Ascii.eqb c "&") eqn:E1; [exact Hrest|].
      destruct (Ascii.eqb c "<") eqn:E2; [exact Hrest|].
      destruct (Ascii.eqb c ">") eqn:E3; [exact Hrest|].
      subst rest. cbv beta iota.
      destruct (Ascii.eqb c (ascii_of_nat 194) && Ascii.eqb c2 (ascii_of_nat 160));
        [exact Hrest2|].
      rewrite !includes_char, E2, E3. exact Hrest.
Qed.

Lemma escapeHtml_no_brackets (text : string) :
  Js.includes (Search.escapeHtml text) "<" = false /\
  Js.includes (Search.escapeHtml text) ">" = false.
Proof. exact (escapeHtml_no_brackets_upto (String.length text) text (le_n _)). Qed.

Lemma historyRow_in_popup (h : HistoryEntry) (school : School) :
  In h (history school) ->
  Js.includes (Popup.historyHtml school) (Popup.historyRow h) = true.
Proof.
  intros Hin. unfold Popup.historyHtml.
  destruct (history school) as [|h0 hs] eqn:E; [destruct Hin|].
  cbn [length Nat.ltb Nat.leb]. rewrite <- E in *.
  apply includes_skip, includes_left.
  apply (includes_join _ (Popup.historyRow h)).
  - apply in_map, in_rev. rewrite rev_involutive. exact Hin.
  - apply includes_iff. exists "", "". now rewrite append_empty.
Qed.

(** C10. Whenever a popup is produced (it is unless the record claims
    data and has no average), it holds the school's name, its
    municipality and the year of every history entry exactly as they
    are, between the tags of their slots; the search result row instead
    holds the escaped name and municipality, and escaped text has no
    angle bracket left. *)
Theorem popup_interpolates_verbatim
    (host : Host) (year : option string) (school : School) (query : string) :
  match Popup.createPopupContent year school with
  | Normal popup =>
      Js.includes popup
        (Js.html "<span class='popup-name'>" +:+ name school +:+ "</span>") = true /\
      Js.includes popup
        (Js.html "<div class='popup-kommune'>" +:+ kommune school +:+ "</div>") = true /\
      (forall h, In h (history school) ->
         Js.includes popup ("<td>" +:+ h_year h +:+ "</td>") = true)
  | Abrupt _ => hasData school = true /\ average school = None
  end /\
  Js.includes (Search.resultRow query school)
    (Js.html "data-school-name='" +:+ Search.escapeHtml (name school) +:+
     Js.html "'") = true /\
  Js.includes (Search.resultRow query school)
    (Js.html "<div class='search-result-kommune'>" +:+
     Search.escapeHtml (kommune school) +:+ "</div>") = true /\
  forall text : string,
    Js.includes (Search.escapeHtml text) "<" = false /\
    Js.includes (Search.escapeHtml text) ">" = false.
Proof.
  split; [|split; [|split; [|exact escapeHtml_no_brackets]]].
  - unfold Popup.createPopupContent.
    destruct (Popup.currentScores school) as [scores|e] eqn:E.
    + split; [find_in_template|]. split; [find_in_template|].
      intros h Hin.
      apply (includes_trans _ (Popup.historyHtml school)); [find_in_template|].
      apply (includes_trans _ _ _ (historyRow_in_popup h school Hin)).
      unfold Popup.historyRow. find_in_template.
    + unfold Popup.currentScores in E.
      destruct (hasData school); [|discriminate E].
      destruct (average school); [discriminate E|]. split; reflexivity.
  - unfold Search.resultRow. find_in_template.
  - unfold Search.resultRow. find_in_template.
Qed.

Lemma popup_interpolates_verbatim_witness :
  match Popup.createPopupContent (Some "2024-25") Examples.withHistory with
  | Normal popup => Js.includes popup ("<td>" +:+ "2022-23" +:+ "</td>") = true
  | Abrupt _ => False
  end.
Proof.
  destruct (popup_interpolates_verbatim AsciiHost.asciiHost
              (Some "2024-25") Examples.withHistory "eide") as [H _].
  destruct (Popup.createPopupContent (Some "2024-25") Examples.withHistory)
    as [popup|e].
  - destruct H as [_ [_ Hyears]].
    apply (Hyears Examples.entry2223). left. reflexivity.
  - destruct H as [_ Havg]. discriminate Havg.
Defined.

(** A name with markup in it: kept as it is in the popup, escaped in the
    search row. *)
Example popup_keeps_markup :
  let school := Examples.school "Skole <b>Nord</b>" "Oslo" (Some (53 # 1)) None in
  (exists popup,
      Popup.createPopupContent None school = Normal popup /\
      Js.includes popup "Skole <b>Nord</b>" = true) /\
  Js.includes (@Search.resultRow AsciiHost.asciiHost "nord" school)
    "Skole <b>Nord</b>" = false /\
  Js.includes (@Search.resultRow AsciiHost.asciiHost "nord" school)
    "Skole &lt;b&gt;Nord&lt;/b&gt;" = true.
Proof.
  split; [eexists; split; [reflexivity|]|split]; vm_compute; reflexivity.
Qed.

End PopupResults.

(** ** Search *)

Section SortFacts.
Context {A : Type} (cmp : A -> A -> Z).
Hypothesis cmp_total : forall a b, 0 < cmp a b -> cmp b a <= 0.
Hypothesis cmp_trans : forall a b c, cmp a b <= 0 -> cmp b c <= 0 -> cmp a c <= 0.

Let le (a b : A) : Prop := cmp a b <= 0.

Lemma insertBy_perm (x : A) (l : list A) :
  Permutation (Search.insertBy cmp x l) (x :: l).
Proof.
  induction l as [|y l IH]; cbn [Search.insertBy]; [reflexivity|].
  destruct (0 <? cmp x y); [|reflexivity].
  rewrite IH. apply perm_swap.
Qed.

Lemma arraySort_perm (l : list A) : Permutation (Search.arraySort cmp l) l.
Proof.
  induction l as [|x l IH]; cbn [Search.arraySort fold_right]; [reflexivity|].
  rewrite insertBy_perm. now apply perm_skip.
Qed.

Lemma insertBy_sorted (x : A) (l : list A) :
  StronglySorted le l -> StronglySorted le (Search.insertBy cmp x l).
Proof.
  induction 1 as [|y l Hl IH Hy]; cbn [Search.insertBy].
  - constructor; constructor.
  - destruct (Z.ltb_spec 0 (cmp x y)) as [Hgt|Hle].
    + constructor; [exact IH|].
      rewrite (insertBy_perm x l). constructor; [|exact Hy].
      exact (cmp_total x y Hgt).
    + constructor; [constructor; assumption|].
      constructor; [exact Hle|].
      eapply List.Forall_impl; [|exact Hy].
      intros z Hz. exact (cmp_trans x y z Hle Hz).
Qed.

Lemma arraySort_sorted (l : list A) : StronglySorted le (Search.arraySort cmp l).
Proof.
  induction l as [|x l IH]; cbn [Search.arraySort fold_right].
  - constructor.
  - now apply insertBy_sorted.
Qed.

Lemma sorted_pair (l1 l2 l3 : list A) (a b : A) :
  StronglySorted le (l1 ++ a :: l2 ++ b :: l3) -> cmp a b <= 0.
Proof.
  intros H. induction l1 as [|x l1 IH].
  2:{ apply IH. now apply StronglySorted_inv in H as [H _]. }
  apply StronglySorted_inv in H as [_ H].
  rewrite List.Forall_forall in H. apply H, in_or_app. right. now left.
Qed.

End SortFacts.

Lemma two_positions {A : Type} (l : list A) (a b : A) :
  In a l -> In b l -> a <> b ->
  (exists l1 l2 l3, l = l1 ++ a :: l2 ++ b :: l3) \/
  (exists l1 l2 l3, l = l1 ++ b :: l2 ++ a :: l3).
Proof.
  intros Ha Hb Hab. apply in_split in Ha as [l1 [l2 ->]].
  apply in_app_or in Hb as [Hb|[Hb|Hb]]; [|congruence|].
  - apply in_split in Hb as [m1 [m2 ->]]. right.
    exists m1, m2, l2. now rewrite <- app_assoc.
  - apply in_split in Hb as [m1 [m2 ->]]. left.
    exists l1, m1, m2. reflexivity.
Qed.

(** The ASCII host obeys the laws. *)
Section AsciiHostFacts.
Import AsciiHost.

Lemma compareBytes_total (a : string) :
  forall b, 0 < compareBytes a b -> compareBytes b a <= 0.
Proof.
  induction a as [|x a IH]; intros [|y b]; cbn [compareBytes]; try lia.
  destruct (Nat.ltb_spec (nat_of_ascii x) (nat_of_ascii y)) as [Hxy|Hxy];
    [lia|].
  destruct (Nat.ltb_spec (nat_of_ascii y) (nat_of_ascii x)) as [Hyx|Hyx];
    [lia|].
  apply IH.
Qed.

Lemma compareBytes_trans (a : string) :
  forall b c,
    compareBytes a b <= 0 -> compareBytes b c <= 0 -> compareBytes a c <= 0.
Proof.
  induction a as [|x a IH]; intros [|y b] [|z c]; cbn [compareBytes];
    try lia.
  destruct (Nat.ltb_spec (nat_of_ascii x) (nat_of_ascii y)),
           (Nat.ltb_spec (nat_of_ascii y) (nat_of_ascii x)),
           (Nat.ltb_spec (nat_of_ascii y) (nat_of_ascii z)),
           (Nat.ltb_spec (nat_of_ascii z) (nat_of_ascii y)),
           (Nat.ltb_spec (nat_of_ascii x) (nat_of_ascii z)),
           (Nat.ltb_spec (nat_of_ascii z) (nat_of_ascii x));
    try lia.
  apply IH.
Qed.

Lemma asciiHost_laws : HostLaws asciiHost.
Proof.
  constructor.
  - intros a b. apply compareBytes_total.
  - intros a b c. apply compareBytes_trans.
  - reflexivity.
Qed.

End AsciiHostFacts.

Section SearchResults.
Context {host : Host} {laws : HostLaws host}.

Lemma compareSchools_total (q : string) (a b : School) :
  0 < Search.compareSchools q a b -> Search.compareSchools q b a <= 0.
Proof.
  unfold Search.compareSchools.
  destruct (Js.startsWith (toLowerCase (name a)) q),
           (Js.startsWith (toLowerCase (name b)) q);
    cbn [andb negb]; try lia; apply localeCompare_total.
Qed.

Lemma compareSchools_trans (q : string) (a b c : School) :
  Search.compareSchools q a b <= 0 ->
  Search.compareSchools q b c <= 0 ->
  Search.compareSchools q a c <= 0.
Proof.
  unfold Search.compareSchools.
  destruct (Js.startsWith (toLowerCase (name a)) q),
           (Js.startsWith (toLowerCase (name b)) q),
           (Js.startsWith (toLowerCase (name c)) q);
    cbn [andb negb]; try lia; apply localeCompare_trans.
Qed.

Lemma compareSchools_order (q : string) (a b : School) :
  Search.compareSchools q a b <= 0 ->
  (Js.startsWith (toLowerCase (name b)) q = true ->
   Js.startsWith (toLowerCase (name a)) q = true) /\
  (Js.startsWith (toLowerCase (name a)) q =
   Js.startsWith (toLowerCase (name b)) q ->
   localeCompare (name a) (name b) <= 0).
Proof.
  unfold Search.compareSchools.
  destruct (Js.startsWith (toLowerCase (name a)) q),
           (Js.startsWith (toLowerCase (name b)) q);
    cbn [andb negb]; intros H; split; intros; try congruence; try lia.
Qed.

Lemma matchingSchools_perm (query : string) (data : list School) :
  Permutation (Search.matchingSchools query data)
    (List.filter (Search.isMatch (toLowerCase query)) data).
Proof. apply arraySort_perm. Qed.

Lemma matchingSchools_sorted (query : string) (data : list School) :
  StronglySorted
    (fun a b => Search.compareSchools (toLowerCase query) a b <= 0)
    (Search.matchingSchools query data).
Proof.
  apply arraySort_sorted.
  - apply compareSchools_total.
  - apply compareSchools_trans.
Qed.

(** C4. When the trimmed input has at least two characters the results
    shown are those of [matchingSchools], which holds exactly the
    schools whose lower-cased name contains the lower-cased query; of two
    results the later one starts with the query only if the earlier one
    does, and two results of the same group are in [localeCompare]
    order.  For the query "Oslo", "Oslo Skole" stands before
    "Ny Oslo Skole". *)
Theorem search_results_ranked
    (value : string) (data : list School) (ui : Search.SearchUi) :
  let query := trim value in
  let startsWithQuery (s : School) :=
    Js.startsWith (toLowerCase (name s)) (toLowerCase query) in
  let result := Search.matchingSchools query data in
  (2 <= Js.jsLength query)%nat ->
  Search.resultsHtml (Search.onInput value data ui) =
    Search.resultsMarkup query result /\
  Permutation result
    (List.filter
       (fun s => Js.includes (toLowerCase (name s)) (toLowerCase query)) data) /\
  (forall l1 a l2 b l3,
      result = l1 ++ a :: l2 ++ b :: l3 ->
      (startsWithQuery b = true -> startsWithQuery a = true) /\
      (startsWithQuery a = startsWithQuery b ->
       localeCompare (name a) (name b) <= 0)) /\
  (query = "Oslo" ->
   forall a b,
     In a data -> In b data ->
     name a = "Oslo Skole" -> name b = "Ny Oslo Skole" ->
     exists l1 l2 l3, result = l1 ++ a :: l2 ++ b :: l3).
Proof.
  intros query startsWithQuery result Hlen.
  assert (Horder : forall l1 a l2 b l3,
             result = l1 ++ a :: l2 ++ b :: l3 ->
             Search.compareSchools (toLowerCase query) a b <= 0).
  { intros l1 a l2 b l3 E.
    pose proof (matchingSchools_sorted query data) as Hs.
    fold result in Hs. rewrite E in Hs.
    exact (sorted_pair _ l1 l2 l3 a b Hs). }
  split; [|split; [|split]].
  - unfold Search.onInput. fold query.
    apply Nat.leb_le in Hlen. rewrite Hlen. reflexivity.
  - apply matchingSchools_perm.
  - intros l1 a l2 b l3 E.
    exact (compareSchools_order _ a b (Horder l1 a l2 b l3 E)).
  - intros Hq a b Ha Hb Hna Hnb.
    assert (Hlow : toLowerCase query = "oslo")
      by (rewrite Hq; apply toLowerCase_ascii; reflexivity).
    assert (Hla : toLowerCase (name a) = "oslo skole")
      by (rewrite Hna; apply toLowerCase_ascii; reflexivity).
    assert (Hlb : toLowerCase (name b) = "ny oslo skole")
      by (rewrite Hnb; apply toLowerCase_ascii; reflexivity).
    assert (Hin : forall s, In s data ->
               Js.includes (toLowerCase (name s)) "oslo" = true ->
               In s result).
    { intros s Hs Hm.
      apply (Permutation_in s (Permutation_sym (matchingSchools_perm query data))).
      apply filter_In. split; [exact Hs|].
      unfold Search.isMatch. rewrite Hlow. exact Hm. }
    assert (Hab : a <> b) by (intros ->; rewrite Hna in Hnb; discriminate Hnb).
    destruct (two_positions result a b) as [H|[l1 [l2 [l3 E]]]];
      [apply Hin; [exact Ha | rewrite Hla; reflexivity]
      |apply Hin; [exact Hb | rewrite Hlb; reflexivity]
      |exact Hab|exact H|].
    exfalso.
    destruct (compareSchools_order _ b a (Horder l1 b l2 a l3 E)) as [Hsw _].
    rewrite Hlow, Hla, Hlb in Hsw. specialize (Hsw eq_refl). discriminate Hsw.
Qed.

End SearchResults.

Lemma search_results_ranked_witness :
  exists l1 l2 l3,
    @Search.matchingSchools AsciiHost.asciiHost "Oslo" Examples.threeSchools =
    l1 ++ Examples.osloSkole :: l2 ++ Examples.nyOslo :: l3.
Proof.
  refine (proj2 (proj2 (proj2
            (@search_results_ranked AsciiHost.asciiHost asciiHost_laws
               " Oslo " Examples.threeSchools Examples.emptyUi _)))
            eq_refl Examples.osloSkole Examples.nyOslo _ _ eq_refl eq_refl).
  - vm_compute. lia.
  - right. right. left. reflexivity.
  - left. reflexivity.
Defined.

Section ResultList.
Context {host : Host}.

Lemma moreResults_text (total : nat) :
  Js.includes (Search.moreResults total)
    ("Viser 10 av " +:+ Js.numberToString (Z.of_nat total) +:+ " resultater") = true.
Proof.
  unfold Search.moreResults.
  match goal with
  | |- Js.includes (?a +:+ ?b +:+ ?c +:+ ?rest) _ = true =>
      rewrite <- (append_assoc b c rest), <- (append_assoc a (b +:+ c) rest)
  end.
  find_in_template.
Qed.

Lemma endsWith_skip (pre s p : string) :
  Js.endsWith s p = true -> Js.endsWith (pre +:+ s) p = true.
Proof.
  rewrite !endsWith_iff. intros [x ->]. exists (pre +:+ x).
  now rewrite append_assoc.
Qed.

(** The appended line ends in the blank that ends its template. *)
Lemma moreResults_ends (total : nat) :
  Js.endsWith (Search.moreResults total) " " = true.
Proof.
  unfold Search.moreResults. do 4 apply endsWith_skip. closed_text.
Qed.

(** Markup that starts with a row or ends with the appended line is not
    the line for no results. *)
Lemma rows_not_noResults (query : string) (s : School) (rest : list School) :
  Search.resultsMarkup query (s :: rest) <> Search.noResults.
Proof.
  unfold Search.resultsMarkup. cbn [length Nat.ltb Nat.leb].
  destruct (Search.maxResults <=? length rest)%nat.
  - intros H.
    pose proof (endsWith_skip
                  (readInnerHTML (Js.join (Search.resultRows query (s :: rest))))
                  _ " " (moreResults_ends (S (length rest)))) as Hend.
    rewrite H in Hend. vm_compute in Hend. discriminate Hend.
  - unfold Search.resultRows, Search.resultsToShow, Search.maxResults.
    cbn [firstn map Js.join fold_right]. unfold Search.resultRow at 1.
    intros H. rewrite !append_assoc in H. vm_compute in H.
    match type of H with
    | String ?c _ = String ?d _ => assert (c = d) by congruence
    end. discriminate.
Qed.

(** What a result row holds of its school. *)
Lemma resultRow_slots (query : string) (school : School) :
  Js.includes (Search.resultRow query school)
    (Js.html "data-school-name='" +:+ Search.escapeHtml (name school) +:+
     Js.html "'") = true /\
  Js.includes (Search.resultRow query school)
    (Js.html "data-school-kommune='" +:+ Search.escapeHtml (kommune school) +:+
     Js.html "'") = true /\
  Js.includes (Search.resultRow query school)
    (Js.html "<div class='search-result-name'>" +:+
     Search.highlightMatch (name school) query +:+ "</div>") = true /\
  Js.includes (Search.resultRow query school)
    (Js.html "<div class='search-result-kommune'>" +:+
     Search.escapeHtml (kommune school) +:+ "</div>") = true.
Proof.
  unfold Search.resultRow. cbv zeta.
  split; [find_in_template|]. split; [find_in_template|].
  split; find_in_template.
Qed.

Lemma Forall2_map_self {A B : Type} (P : A -> B -> Prop) (f : A -> B)
    (l : list A) :
  (forall x, P x (f x)) -> Forall2 P l (map f l).
Proof.
  intros Hf. induction l as [|x l IH]; cbn [map]; constructor; auto.
Qed.

(** C5. With more than ten matches the script writes ten rows, those of
    the first ten matches, one per match and in order, each holding the
    escaped name and municipality of its school and the highlighted
    name.  It then reads the container back and writes what it read
    followed by one line that reads "Viser 10 av N resultater" for the N
    matches found.  Where the rows read back as they were written, the
    container holds the ten rows and the line, each row as it was
    written.  For fifteen matches there are ten rows and the line
    "Viser 10 av 15 resultater". *)
Theorem results_capped_at_ten
    (query : string) (data : list School) (ui : Search.SearchUi) :
  let matching := Search.matchingSchools query data in
  let rows := Search.resultRows query matching in
  let shown := Search.resultsHtml (Search.performSearch query data ui) in
  (10 < length matching)%nat ->
  rows = map (Search.resultRow query) (firstn 10 matching) /\
  length rows = 10%nat /\
  Forall2
    (fun school row =>
       Js.includes row
         (Js.html "data-school-name='" +:+ Search.escapeHtml (name school) +:+
          Js.html "'") = true /\
       Js.includes row
         (Js.html "data-school-kommune='" +:+
          Search.escapeHtml (kommune school) +:+ Js.html "'") = true /\
       Js.includes row
         (Js.html "<div class='search-result-name'>" +:+
          Search.highlightMatch (name school) query +:+ "</div>") = true /\
       Js.includes row
         (Js.html "<div class='search-result-kommune'>" +:+
          Search.escapeHtml (kommune school) +:+ "</div>") = true)
    (firstn 10 matching) rows /\
  shown =
    readInnerHTML (Js.join rows) +:+ Search.moreResults (length matching) /\
  Js.includes (Search.moreResults (length matching))
    ("Viser 10 av " +:+ Js.numberToString (Z.of_nat (length matching)) +:+
     " resultater") = true /\
  Js.includes shown
    ("Viser 10 av " +:+ Js.numberToString (Z.of_nat (length matching)) +:+
     " resultater") = true /\
  (readInnerHTML (Js.join rows) = Js.join rows ->
   shown = Js.join rows +:+ Search.moreResults (length matching) /\
   Forall (fun row => Js.includes shown row = true) rows) /\
  (length matching = 15%nat ->
   Js.includes shown "Viser 10 av 15 resultater" = true).
Proof.
  intros matching rows shown Hmore.
  assert (Hhtml : shown =
                  readInnerHTML (Js.join rows) +:+
                  Search.moreResults (length matching)).
  { unfold shown, Search.performSearch. cbn [Search.resultsHtml].
    fold matching. unfold Search.resultsMarkup. fold rows.
    destruct (Nat.ltb_spec 0 (length matching)) as [_|]; [|lia].
    unfold Search.maxResults.
    destruct (Nat.ltb_spec 10 (length matching)) as [_|]; [|lia].
    reflexivity. }
  assert (Hrows : rows = map (Search.resultRow query) (firstn 10 matching))
    by reflexivity.
  split; [exact Hrows|]. split; [|split; [|split; [exact Hhtml|]]].
  - rewrite Hrows, length_map, length_firstn. lia.
  - rewrite Hrows. apply Forall2_map_self. intros school.
    apply resultRow_slots.
  - split; [apply moreResults_text|]. split; [|split].
    + rewrite Hhtml. apply includes_skip, moreResults_text.
    + intros Hback. rewrite Hback in Hhtml. split; [exact Hhtml|].
      apply List.Forall_forall. intros row Hin. rewrite Hhtml.
      apply includes_left. apply (includes_join _ row); [exact Hin|].
      apply includes_iff. exists "", "". now rewrite append_empty.
    + intros H15. rewrite Hhtml. apply includes_skip.
      rewrite H15. exact (moreResults_text 15).
Qed.

End ResultList.

Lemma results_capped_at_ten_witness :
  let rows :=
    @Search.resultRows AsciiHost.asciiHost "skole"
      (@Search.matchingSchools AsciiHost.asciiHost "skole"
         Examples.fifteenSchools) in
  let shown :=
    Search.resultsHtml
      (@Search.performSearch AsciiHost.asciiHost "skole"
         Examples.fifteenSchools Examples.emptyUi) in
  length rows = 10%nat /\
  Js.includes shown "Viser 10 av 15 resultater" = true /\
  Forall (fun row => Js.includes shown row = true) rows.
Proof.
  pose proof (@results_capped_at_ten AsciiHost.asciiHost "skole"
                Examples.fifteenSchools Examples.emptyUi) as H.
  cbv zeta in H. cbv zeta.
  assert (Hlen : length (@Search.matchingSchools AsciiHost.asciiHost "skole"
                           Examples.fifteenSchools) = 15%nat)
    by (vm_compute; reflexivity).
  destruct H as [_ [Hrows [_ [_ [_ [_ [Hback H15]]]]]]].
  - rewrite Hlen. lia.
  - split; [exact Hrows|]. split; [exact (H15 Hlen)|].
    exact (proj2 (Hback eq_refl)).
Defined.

(** ** Navigation *)

Section NavigationResults.
Import Navigation.

Lemma logged_logged (app : App) (e1 e2 : list Effect) :
  logged (logged app e1) e2 = logged app (e1 ++ e2).
Proof. unfold logged. cbn. now rewrite <- app_assoc. Qed.

Lemma findMarker_first (schoolName schoolKommune : string) (allMarkers : list Marker) :
  match findMarker schoolName schoolKommune allMarkers with
  | Some target =>
      exists before after,
        allMarkers = before ++ target :: after /\
        name (schoolData target) = schoolName /\
        kommune (schoolData target) = schoolKommune /\
        forall x, In x before ->
          ~ (name (schoolData x) = schoolName /\
             kommune (schoolData x) = schoolKommune)
  | None =>
      forall x, In x allMarkers ->
        ~ (name (schoolData x) = schoolName /\
           kommune (schoolData x) = schoolKommune)
  end.
Proof.
  induction allMarkers as [|m rest IH]; cbn [findMarker].
  - intros x [].
  - destruct (String.eqb_spec (name (schoolData m)) schoolName) as [Hn|Hn];
      [destruct (String.eqb_spec (kommune (schoolData m)) schoolKommune) as [Hk|Hk]|];
      cbn [andb].
    + exists [], rest. repeat split; try assumption. intros x [].
    + destruct (findMarker schoolName schoolKommune rest) as [target|].
      * destruct IH as [before [after [-> [H1 [H2 H3]]]]].
        exists (m :: before), after. repeat split; try assumption.
        intros x [<-|Hx]; [tauto | now apply H3].
      * intros x [<-|Hx]; [tauto | now apply IH].
    + destruct (findMarker schoolName schoolKommune rest) as [target|].
      * destruct IH as [before [after [-> [H1 [H2 H3]]]]].
        exists (m :: before), after. repeat split; try assumption.
        intros x [<-|Hx]; [tauto | now apply H3].
      * intros x [<-|Hx]; [tauto | now apply IH].
Qed.

(** C6. If some marker's record has both the selected name and the
    selected municipality, navigation finds a marker, and the marker
    found has that name and that municipality: it is the first such
    marker of the layer list, whatever same-named markers of other
    municipalities stand before it, and it is the selected school's
    marker when no other marker has the pair.  The view is set to its
    coordinates at zoom 15 and its popup is scheduled. *)
Theorem navigation_resolves_pair
    (schoolName schoolKommune : string) (allMarkers : list Marker)
    (m : Marker) (app : App) :
  In m allMarkers ->
  name (schoolData m) = schoolName ->
  kommune (schoolData m) = schoolKommune ->
  exists target before after,
    findMarker schoolName schoolKommune allMarkers = Some target /\
    allMarkers = before ++ target :: after /\
    name (schoolData target) = schoolName /\
    kommune (schoolData target) = schoolKommune /\
    (forall x, In x before ->
       ~ (name (schoolData x) = schoolName /\
          kommune (schoolData x) = schoolKommune)) /\
    ((forall x, In x allMarkers ->
        name (schoolData x) = schoolName ->
        kommune (schoolData x) = schoolKommune -> x = m) ->
     target = m) /\
    zoomToSchool schoolName schoolKommune allMarkers app =
      (Normal tt,
       logged app
         [SetView (lat (schoolData target)) (lng (schoolData target)) 15;
          SetTimeout (OpenPopupWhenSettled target) 1000]).
Proof.
  intros Hin Hname Hkommune.
  pose proof (findMarker_first schoolName schoolKommune allMarkers) as Hfind.
  unfold zoomToSchool.
  destruct (findMarker schoolName schoolKommune allMarkers) as [target|].
  - destruct Hfind as [before [after [Hsplit [H1 [H2 H3]]]]].
    exists target, before, after. repeat split; try assumption.
    + intros Huniq. apply Huniq; [|exact H1|exact H2].
      rewrite Hsplit. apply in_or_app. right. now left.
    + unfold bind, emit. now rewrite logged_logged.
  - exfalso. exact (Hfind m Hin (conj Hname Hkommune)).
Qed.

(** C7. If no marker's record has the selected name and municipality,
    navigation writes one error to the console and does nothing else:
    no view change, no timer, no popup, and the script's variables are
    as before. *)
Theorem navigation_not_found
    (schoolName schoolKommune : string) (allMarkers : list Marker) (app : App) :
  (forall x, In x allMarkers ->
     ~ (name (schoolData x) = schoolName /\
        kommune (schoolData x) = schoolKommune)) ->
  zoomToSchool schoolName schoolKommune allMarkers app =
    (Normal tt,
     logged app
       [ConsoleError
          ["Marker not found for school:"; schoolName; "in kommune:"; schoolKommune]
          None]) /\
  List.filter isRender
    (trace (snd (zoomToSchool schoolName schoolKommune allMarkers app))) =
  List.filter isRender (trace app).
Proof.
  intros Hnone.
  pose proof (findMarker_first schoolName schoolKommune allMarkers) as Hfind.
  unfold zoomToSchool.
  destruct (findMarker schoolName schoolKommune allMarkers) as [target|].
  - exfalso. destruct Hfind as [before [after [Hsplit [H1 [H2 _]]]]].
    apply (Hnone target); [|tauto].
    rewrite Hsplit. apply in_or_app. right. now left.
  - split; [reflexivity|].
    unfold emit, logged. cbn [snd trace].
    rewrite List.filter_app. cbn. now rewrite app_nil_r.
Qed.

Lemma navigation_resolves_pair_witness :
  findMarker "Sentrum skole" "Oslo"
    [Examples.sentrumBergen; Examples.sentrumOslo] = Some Examples.sentrumOslo.
Proof.
  destruct (navigation_resolves_pair "Sentrum skole" "Oslo"
              [Examples.sentrumBergen; Examples.sentrumOslo]
              Examples.sentrumOslo (initialApp true))
    as [target [before [after [Hfind [_ [_ [_ [_ [Hsame _]]]]]]]]].
  - right. left. reflexivity.
  - reflexivity.
  - reflexivity.
  - rewrite Hfind. f_equal. apply Hsame.
    intros x Hx Hn Hk. destruct Hx as [Hx|[Hx|Hx]]; try subst x;
      [discriminate Hk | reflexivity | destruct Hx].
Defined.

Lemma navigation_not_found_witness :
  zoomToSchool "Sentrum skole" "Stavanger"
    [Examples.sentrumBergen; Examples.sentrumOslo] (initialApp true) =
  (Normal tt,
   logged (initialApp true)
     [ConsoleError
        ["Marker not found for school:"; "Sentrum skole"; "in kommune:"; "Stavanger"]
        None]).
Proof.
  apply (navigation_not_found "Sentrum skole" "Stavanger"
           [Examples.sentrumBergen; Examples.sentrumOslo] (initialApp true)).
  intros x Hx [_ Hk]. destruct Hx as [Hx|[Hx|Hx]]; try subst x;
    [discriminate Hk | discriminate Hk | destruct Hx].
Defined.

End NavigationResults.

(** ** Loading *)

Section LoaderResults.
Import Loader.

(** C8. When the response has a non-success status, or its body is not
    JSON, loading ends with one console error and one alert and nothing
    else, in both copies of the script: the school list and the marker
    table keep their values (empty at start-up), no marker or layer is
    added, the view is not set and the search handlers are not
    installed. *)
Theorem failed_load_renders_nothing
    (ok : bool) (status : Z) (body : option Dataset) (app : App) :
  ok = false \/ body = None ->
  let app' := snd (loadSchoolData (Response ok status body) app) in
  (exists error,
      loadSchoolData (Response ok status body) app =
        (Normal tt, logged app (failureReport error)) /\
      EarlyLoader.loadSchoolData (Response ok status body) app =
        (Normal tt, logged app (failureReport error))) /\
  schoolsData app' = schoolsData app /\
  schoolMarkers app' = schoolMarkers app /\
  SCHOOL_DATA_YEAR app' = SCHOOL_DATA_YEAR app /\
  List.filter isRender (trace app') = List.filter isRender (trace app) /\
  (app = initialApp (searchBoxPresent app) ->
   schoolsData app' = [] /\ schoolMarkers app' = ∅ /\
   exists error, trace app' = failureReport error).
Proof.
  intros Hfail app'.
  assert (Hrun : exists error,
             loadSchoolData (Response ok status body) app =
               (Normal tt, logged app (failureReport error)) /\
             EarlyLoader.loadSchoolData (Response ok status body) app =
               (Normal tt, logged app (failureReport error))).
  { destruct ok.
    - destruct Hfail as [Hok | ->]; [discriminate Hok|].
      exists ParseError.
      cbv beta iota delta
        [loadSchoolData EarlyLoader.loadSchoolData catch bind readResponse
         throw onError emit negb].
      now rewrite logged_logged.
    - exists (HttpError status).
      cbv beta iota delta
        [loadSchoolData EarlyLoader.loadSchoolData catch bind readResponse
         throw onError emit negb].
      now rewrite logged_logged. }
  destruct Hrun as [error [Hrun Hearly]].
  assert (Happ : app' = logged app (failureReport error))
    by (unfold app'; now rewrite Hrun).
  split; [exists error; split; [exact Hrun | exact Hearly]|].
  rewrite Happ. cbn [logged schoolsData schoolMarkers SCHOOL_DATA_YEAR trace].
  split; [reflexivity|]. split; [reflexivity|]. split; [reflexivity|].
  split.
  - rewrite List.filter_app. cbn. now rewrite app_nil_r.
  - intros Hinit. rewrite Hinit. cbn. split; [reflexivity|].
    split; [reflexivity|]. exists error. reflexivity.
Qed.

Lemma failed_load_renders_nothing_witness :
  schoolsData (snd (loadSchoolData (Response false 404 None) (initialApp true))) = [] /\
  trace (snd (loadSchoolData (Response false 404 None) (initialApp true))) =
    failureReport (HttpError 404).
Proof.
  destruct (failed_load_renders_nothing false 404 None (initialApp true)
              (or_introl eq_refl))
    as [_ [Hdata _]].
  split; [exact Hdata | reflexivity].
Defined.

(** A successful load, for comparison: markers, layer and search. *)
Example successful_load :
  map isRender
    (trace (snd (loadSchoolData
                   (Response true 200
                      (Some {| schools := [Examples.osloSkole];
                               metadataYear := Some "2024-25";
                               mapConfig := None |}))
                   (initialApp true)))) =
  [false; true; true; true; false] /\
  schoolsData
    (snd (loadSchoolData
            (Response true 200
               (Some {| schools := [Examples.osloSkole];
                        metadataYear := Some "2024-25";
                        mapConfig := None |}))
            (initialApp true))) = [Examples.osloSkole].
Proof. split; reflexivity. Qed.

End LoaderResults.


(** * Further results *)

(** ** Cluster colouring, continued *)

Section ClusterMore.
Import Cluster.

Lemma totals_cons (m : Marker) (markers : list Marker) :
  totals (m :: markers) =
    (fst (visit (0, 0) m) + fst (totals markers),
     snd (visit (0, 0) m) + snd (totals markers)).
Proof.
  unfold totals at 1. cbn [fold_left].
  destruct (visit (0, 0) m) as [s c]. now rewrite fold_visit_shift.
Qed.

Lemma totals_app_sum (a b : list Marker) :
  totals (a ++ b) =
    (fst (totals a) + fst (totals b), snd (totals a) + snd (totals b)).
Proof.
  induction a as [|m a IH].
  - cbn [app]. destruct (totals b). reflexivity.
  - cbn [app]. rewrite !totals_cons, IH. cbn [fst snd]. f_equal; lia.
Qed.

Lemma totals_perm (a b : list Marker) :
  Permutation a b -> totals a = totals b.
Proof.
  induction 1 as [|m a b _ IH|m n a|a b c _ IH1 _ IH2].
  - reflexivity.
  - now rewrite !totals_cons, IH.
  - rewrite !totals_cons. cbn [fst snd]. f_equal; lia.
  - now rewrite IH1.
Qed.

(** What one marker adds: nothing, or one count and a value from 42 to 57. *)
Lemma visit_range (m : Marker) :
  (snd (visit (0, 0) m) = 0 /\ fst (visit (0, 0) m) = 0) \/
  (snd (visit (0, 0) m) = 1 /\ 42 <= fst (visit (0, 0) m) <= 57).
Proof.
  unfold visit. destruct (truthy (fillColor m)); [|left; split; reflexivity].
  unfold avgOfColor.
  repeat match goal with
         | |- context [String.eqb ?a ?b] => destruct (String.eqb a b)
         end; cbn; (left; split; reflexivity) || (right; split; lia).
Qed.

Lemma totals_range (markers : list Marker) :
  0 <= snd (totals markers) <= Z.of_nat (length markers) /\
  42 * snd (totals markers) <= fst (totals markers) <= 57 * snd (totals markers).
Proof.
  induction markers as [|m markers IH]; [cbn; lia|].
  rewrite totals_cons. cbn [fst snd length].
  destruct (visit_range m) as [[-> ->]|[-> ?]]; lia.
Qed.

Lemma classify_with_data (a : Q) : Spec.classify (Some a) <> Spec.Gray.
Proof.
  unfold Spec.classify.
  destruct (Qlt_le_dec a 45); [discriminate|].
  destruct (Qlt_le_dec a 50); [discriminate|].
  destruct (Qlt_le_dec a 55); discriminate.
Qed.

Lemma hex_injective (b c : Spec.Band) : Spec.hex b = Spec.hex c -> b = c.
Proof. destruct b, c; intros H; try reflexivity; discriminate H. Qed.

Lemma quotient_lt (s c k : Z) :
  0 < c -> ((inject_Z s / inject_Z c < inject_Z k)%Q <-> s < k * c).
Proof.
  intros Hc. destruct c as [|p|p]; try lia.
  unfold Qlt, Qdiv, Qmult, Qinv, inject_Z. cbn. lia.
Qed.

Lemma quotient_le (s c k : Z) :
  0 < c -> ((inject_Z k <= inject_Z s / inject_Z c)%Q <-> k * c <= s).
Proof.
  intros Hc. destruct c as [|p|p]; try lia.
  unfold Qle, Qdiv, Qmult, Qinv, inject_Z. cbn. lia.
Qed.

(** The colour in terms of the integers [sum] and [count]. *)
Lemma colorOfTotals_bands (sum count : Z) :
  0 < count ->
  (sum < 45 * count /\ colorOfTotals sum count = red) \/
  (45 * count <= sum < 50 * count /\ colorOfTotals sum count = orange) \/
  (50 * count <= sum < 55 * count /\ colorOfTotals sum count = lightGreen) \/
  (55 * count <= sum /\ colorOfTotals sum count = darkGreen).
Proof.
  intros Hc. rewrite (colorOfTotals_classify sum count Hc).
  unfold Spec.classify.
  pose proof (quotient_lt sum count 45 Hc) as L45.
  pose proof (quotient_lt sum count 50 Hc) as L50.
  pose proof (quotient_lt sum count 55 Hc) as L55.
  pose proof (quotient_le sum count 45 Hc) as G45.
  pose proof (quotient_le sum count 50 Hc) as G50.
  pose proof (quotient_le sum count 55 Hc) as G55.
  change (inject_Z 45) with 45%Q in *.
  change (inject_Z 50) with 50%Q in *.
  change (inject_Z 55) with 55%Q in *.
  destruct (Qlt_le_dec (inject_Z sum / inject_Z count) 45) as [H|H].
  { left. split; [now apply L45 | reflexivity]. }
  apply G45 in H.
  destruct (Qlt_le_dec (inject_Z sum / inject_Z count) 50) as [H'|H'].
  { right. left. split; [split; [exact H | now apply L50] | reflexivity]. }
  apply G50 in H'.
  destruct (Qlt_le_dec (inject_Z sum / inject_Z count) 55) as [H''|H''].
  { right. right. left.
    split; [split; [exact H' | now apply L55] | reflexivity]. }
  apply G55 in H''.
  right. right. right. split; [exact H'' | reflexivity].
Qed.

Lemma colorOfTotals_none (sum : Z) : colorOfTotals sum 0 = gray.
Proof. reflexivity. Qed.

Lemma clusterColor_totals (markers : list Marker) :
  clusterColor markers =
    colorOfTotals (fst (totals markers)) (snd (totals markers)).
Proof. unfold clusterColor. now destruct (totals markers). Qed.

Ltac band_cases H :=
  destruct H as [[? ?]|[[? ?]|[[? ?]|[? ?]]]].

(** Merging keeps a shared colour. *)
Lemma colorOfTotals_merge (s1 c1 s2 c2 : Z) :
  0 <= c1 -> 0 <= c2 ->
  colorOfTotals s1 c1 = colorOfTotals s2 c2 ->
  colorOfTotals (s1 + s2) (c1 + c2) = colorOfTotals s1 c1.
Proof.
  intros H1 H2 Heq.
  destruct (Z.eq_dec c1 0) as [->|N1]; destruct (Z.eq_dec c2 0) as [->|N2].
  - reflexivity.
  - exfalso. rewrite colorOfTotals_none in Heq.
    pose proof (colorOfTotals_bands s2 c2 ltac:(lia)) as B.
    band_cases B; rewrite <- Heq in *; discriminate.
  - exfalso. rewrite colorOfTotals_none in Heq.
    pose proof (colorOfTotals_bands s1 c1 ltac:(lia)) as B.
    band_cases B; rewrite Heq in *; discriminate.
  - pose proof (colorOfTotals_bands s1 c1 ltac:(lia)) as B1.
    pose proof (colorOfTotals_bands s2 c2 ltac:(lia)) as B2.
    pose proof (colorOfTotals_bands (s1 + s2) (c1 + c2) ltac:(lia)) as B.
    band_cases B1; band_cases B2;
      match goal with
      | A : colorOfTotals s1 c1 = _, B' : colorOfTotals s2 c2 = _ |- _ =>
          rewrite A, B' in Heq; try discriminate Heq; rewrite A
      end;
      band_cases B;
      match goal with
      | C : colorOfTotals (s1 + s2) (c1 + c2) = _ |- _ => rewrite C
      end; try reflexivity; exfalso; lia.
Qed.

Lemma visit_count (m : Marker) :
  snd (visit (0, 0) m) = if countedInCluster m then 1 else 0.
Proof.
  unfold countedInCluster, visit.
  destruct (truthy (fillColor m)); [|reflexivity]. cbn [andb].
  unfold avgOfColor.
  destruct (String.eqb_spec (text (fillColor m)) red) as [->|_]; [reflexivity|].
  destruct (String.eqb_spec (text (fillColor m)) orange) as [->|_]; [reflexivity|].
  destruct (String.eqb_spec (text (fillColor m)) lightGreen) as [->|_]; [reflexivity|].
  destruct (String.eqb_spec (text (fillColor m)) darkGreen) as [->|_]; [reflexivity|].
  destruct (String.eqb (text (fillColor m)) gray); reflexivity.
Qed.

Lemma visit_uncounted (m : Marker) :
  countedInCluster m = false -> visit (0, 0) m = (0, 0).
Proof.
  intros H. pose proof (visit_count m) as Hc. rewrite H in Hc.
  destruct (visit_range m) as [[H0 H1]|[H0 _]]; [|congruence].
  destruct (visit (0, 0) m). cbn in *. congruence.
Qed.

Lemma count_is_counted (markers : list Marker) :
  snd (totals markers) =
    Z.of_nat (length (List.filter countedInCluster markers)).
Proof.
  induction markers as [|m markers IH]; [reflexivity|].
  rewrite totals_cons. cbn [snd List.filter]. rewrite visit_count, IH.
  destruct (countedInCluster m); cbn [length]; lia.
Qed.

(** X1. The order of the markers in a cluster does not matter: a
    rearranged cluster has the same sum and count, the same colour and
    the same icon. *)
Theorem cluster_order_irrelevant (a b : list Marker) :
  Permutation a b ->
  totals a = totals b /\
  clusterColor a = clusterColor b /\
  iconCreateFunction a = iconCreateFunction b.
Proof.
  intros Hperm. pose proof (totals_perm a b Hperm) as Ht.
  assert (Hc : clusterColor a = clusterColor b)
    by (unfold clusterColor; now rewrite Ht).
  split; [exact Ht|]. split; [exact Hc|].
  unfold iconCreateFunction. cbv zeta.
  now rewrite Hc, (Permutation_length Hperm).
Qed.

Lemma cluster_order_irrelevant_witness :
  clusterColor (rev Examples.mixedCluster) = clusterColor Examples.mixedCluster.
Proof.
  apply (cluster_order_irrelevant (rev Examples.mixedCluster) Examples.mixedCluster).
  apply Permutation_sym, Permutation_rev.
Defined.

(** X2. Merging clusters: sums and counts add up; two clusters of the
    same colour merge into a cluster of that colour, and a cluster
    without data takes the colour of the cluster it is merged with. *)
Theorem merged_cluster_colour (a b : list Marker) :
  totals (a ++ b) =
    (fst (totals a) + fst (totals b), snd (totals a) + snd (totals b)) /\
  (clusterColor a = clusterColor b -> clusterColor (a ++ b) = clusterColor a) /\
  (clusterColor a = gray -> clusterColor (a ++ b) = clusterColor b).
Proof.
  pose proof (totals_app_sum a b) as Happ.
  pose proof (totals_range a) as [[Ha _] Hra].
  pose proof (totals_range b) as [[Hb _] _].
  split; [exact Happ|]. rewrite !clusterColor_totals, Happ. cbn [fst snd].
  split.
  - now apply colorOfTotals_merge.
  - intros Hgray.
    destruct (Z.eq_dec (snd (totals a)) 0) as [Hz|Hnz].
    + rewrite Hz in *. replace (fst (totals a)) with 0 by lia. reflexivity.
    + exfalso.
      pose proof (colorOfTotals_bands (fst (totals a)) (snd (totals a))
                    ltac:(lia)) as B.
      band_cases B; rewrite Hgray in *; discriminate.
Qed.

Lemma merged_cluster_colour_witness :
  clusterColor (Examples.mixedCluster ++ rev Examples.mixedCluster) =
  clusterColor Examples.mixedCluster /\
  clusterColor (Examples.grayCluster ++ Examples.mixedCluster) =
  clusterColor Examples.mixedCluster.
Proof.
  split.
  - apply (proj1 (proj2 (merged_cluster_colour Examples.mixedCluster
                           (rev Examples.mixedCluster)))).
    reflexivity.
  - apply (proj2 (proj2 (merged_cluster_colour Examples.grayCluster
                           Examples.mixedCluster))).
    reflexivity.
Defined.

(** X3. For every cluster, whatever colours its markers carry: the count
    is the number of markers with a non-empty, non-gray colour; the sum
    lies between 42 and 57 times the count; the cluster is gray exactly
    when the count is zero, and otherwise has one of the four data
    colours. *)
Theorem cluster_count_and_range (markers : list Marker) :
  snd (totals markers) =
    Z.of_nat (length (List.filter countedInCluster markers)) /\
  42 * snd (totals markers) <= fst (totals markers) <= 57 * snd (totals markers) /\
  (clusterColor markers = gray <-> snd (totals markers) = 0) /\
  In (clusterColor markers) [red; orange; lightGreen; darkGreen; gray].
Proof.
  pose proof (totals_range markers) as [[Hc _] Hr].
  split; [apply count_is_counted|]. split; [exact Hr|].
  rewrite clusterColor_totals.
  destruct (Z.eq_dec (snd (totals markers)) 0) as [Hz|Hnz].
  - rewrite Hz. cbn. tauto.
  - pose proof (colorOfTotals_bands (fst (totals markers)) (snd (totals markers))
                  ltac:(lia)) as B.
    band_cases B;
      match goal with H : colorOfTotals _ _ = _ |- _ => rewrite H end;
      (split; [split; [discriminate | intros; lia] | cbn; tauto]).
Qed.

Lemma single_band_colour (b : Spec.Band) :
  b <> Spec.Gray ->
  exists v, Spec.representative b = Some v /\ colorOfTotals v 1 = Spec.hex b.
Proof.
  destruct b; intros Hb; try congruence; eexists; split; reflexivity.
Qed.

Lemma uniform_cluster_cases (b : Spec.Band) (markers : list Marker) :
  b <> Spec.Gray ->
  Forall (fun m => countedInCluster m = false \/ fillColor m = Some (Spec.hex b))
         markers ->
  (snd (totals markers) = 0 /\
   Forall (fun m => countedInCluster m = false) markers) \/
  (0 < snd (totals markers) /\ clusterColor markers = Spec.hex b).
Proof.
  intros Hb Hall. destruct (single_band_colour b Hb) as [v [Hv Hone]].
  induction Hall as [|m markers Hm _ IH]; [left; split; [reflexivity|constructor]|].
  pose proof (totals_range markers) as [[Hc _] Hr].
  rewrite clusterColor_totals, totals_cons.
  destruct (countedInCluster m) eqn:Ec.
  - destruct Hm as [Hm|Hm]; [discriminate Hm|].
    rewrite (visit_band m b 0 0 Hm), Hv. cbn [fst snd]. right.
    split; [lia|].
    destruct IH as [[Hz _]|[Hpos Hcol]].
    + rewrite Hz in *. replace (fst (totals markers)) with 0 by lia.
      replace (0 + v + 0) with v by lia. exact Hone.
    + rewrite clusterColor_totals in Hcol.
      replace (0 + v) with v by lia. change (0 + 1) with 1.
      rewrite <- Hone. apply colorOfTotals_merge; [lia | lia | congruence].
  - rewrite (visit_uncounted m Ec). cbn [fst snd]. rewrite !Z.add_0_l.
    destruct IH as [[Hz Hnone]|[Hpos Hcol]].
    + left. split; [lia | constructor; assumption].
    + right. split; [lia|]. now rewrite <- clusterColor_totals.
Qed.

(** X4. A cluster whose counted markers all carry the same data colour,
    with any number of gray or colourless markers among them, has that
    colour. *)
Theorem uniform_cluster_keeps_colour (b : Spec.Band) (markers : list Marker) :
  b <> Spec.Gray ->
  Forall (fun m => countedInCluster m = false \/ fillColor m = Some (Spec.hex b))
         markers ->
  Exists (fun m => fillColor m = Some (Spec.hex b)) markers ->
  clusterColor markers = Spec.hex b.
Proof.
  intros Hb Hall Hex.
  destruct (uniform_cluster_cases b markers Hb Hall) as [[_ Hnone]|[_ Hcol]];
    [|exact Hcol].
  exfalso. apply List.Exists_exists in Hex as [m [Hin Hm]].
  rewrite List.Forall_forall in Hnone. specialize (Hnone m Hin).
  unfold countedInCluster in Hnone. rewrite Hm in Hnone.
  destruct b; try congruence; discriminate Hnone.
Qed.

Lemma uniform_cluster_keeps_colour_witness :
  clusterColor
    [Examples.marker (Some "#999999"); Examples.marker (Some "#1a9850");
     Examples.marker None; Examples.marker (Some "#1a9850")] = "#1a9850".
Proof.
  apply (uniform_cluster_keeps_colour Spec.DarkGreen).
  - discriminate.
  - constructor; [left; reflexivity|].
    constructor; [right; reflexivity|].
    constructor; [left; reflexivity|].
    constructor; [right; reflexivity|]. constructor.
  - right. left. reflexivity.
Defined.

(** X5. The number a cluster icon shows is the number of all its
    markers, the gray ones too, and its size class is small below 10
    markers, medium below 100 and large from 100. *)
Theorem cluster_icon_count_and_size (markers : list Marker) :
  let n := Z.of_nat (length markers) in
  let icon := iconCreateFunction markers in
  Js.includes (icon_html icon)
    (Js.html "'>" +:+ Js.numberToString n +:+ "</span></div>") = true /\
  (icon_className icon = "marker-cluster marker-cluster-small" <-> n < 10) /\
  (icon_className icon = "marker-cluster marker-cluster-medium" <-> 10 <= n < 100) /\
  (icon_className icon = "marker-cluster marker-cluster-large" <-> 100 <= n).
Proof.
  intros n icon. split.
  - unfold icon, iconCreateFunction. cbv zeta. cbn [icon_html]. fold n.
    find_in_template.
  - unfold icon, iconCreateFunction, sizeClass. cbv zeta. cbn [icon_className].
    fold n.
    destruct (Z.ltb_spec n 10); [|destruct (Z.ltb_spec n 100)];
      repeat split; intros; try lia; try reflexivity; discriminate.
Qed.

End ClusterMore.

(** ** Popups, continued *)

Section PopupMore.

Lemma renderable_scores (school : School) :
  renderable school = true ->
  exists scores, Popup.currentScores school = Normal scores.
Proof.
  unfold renderable, Popup.currentScores.
  destruct (average school); destruct (hasData school); intros H;
    try discriminate H; eexists; reflexivity.
Qed.

Lemma renderable_popup (year : option string) (school : School) :
  renderable school = true ->
  Popup.createPopupContent year school =
    Normal (markupOf (Popup.createPopupContent year school)).
Proof.
  intros H. destruct (renderable_scores school H) as [scores Hs].
  unfold Popup.createPopupContent. rewrite Hs. reflexivity.
Qed.

Lemma renderable_early_popup (school : School) :
  renderable school = true ->
  EarlyPopup.createPopupContent school =
    Normal (markupOf (EarlyPopup.createPopupContent school)).
Proof.
  unfold renderable, EarlyPopup.createPopupContent.
  destruct (average school); destruct (hasData school); intros H;
    try discriminate H; reflexivity.
Qed.

Lemma unrenderable_popup (year : option string) (school : School) :
  renderable school = false ->
  Popup.createPopupContent year school = Abrupt TypeError /\
  EarlyPopup.createPopupContent school = Abrupt TypeError.
Proof.
  unfold renderable, Popup.createPopupContent, Popup.currentScores,
    EarlyPopup.createPopupContent.
  destruct (average school); destruct (hasData school); intros H;
    try discriminate H; split; reflexivity.
Qed.

(** X6. Building a popup throws a TypeError exactly for a record that
    says it has data and has no average, in both copies of the function
    and whatever the year; every other record gets its popup. *)
Theorem popup_throws_iff (year : option string) (school : School) :
  (Popup.createPopupContent year school = Abrupt TypeError <->
   hasData school = true /\ average school = None) /\
  (EarlyPopup.createPopupContent school = Abrupt TypeError <->
   hasData school = true /\ average school = None) /\
  ((hasData school = false \/ average school <> None) <->
   exists popup early,
     Popup.createPopupContent year school = Normal popup /\
     EarlyPopup.createPopupContent school = Normal early).
Proof.
  assert (Hiff : renderable school = false <->
                 hasData school = true /\ average school = None).
  { unfold renderable. destruct (average school); destruct (hasData school);
      cbn; split; intros H; try discriminate H; try tauto;
      destruct H as [H1 H2]; discriminate. }
  destruct (renderable school) eqn:Er.
  - pose proof (renderable_popup year school Er) as Hp.
    pose proof (renderable_early_popup school Er) as He.
    assert (Hno : ~ (hasData school = true /\ average school = None))
      by (intros H; apply Hiff in H; discriminate H).
    split; [|split].
    + split; [intros H; rewrite Hp in H; discriminate H | tauto].
    + split; [intros H; rewrite He in H; discriminate H | tauto].
    + split; [intros _; eauto|].
      intros _. destruct (hasData school); [|now left].
      right. intros Hn. apply Hno. now split.
  - destruct (unrenderable_popup year school Er) as [Hp He].
    pose proof (proj1 Hiff eq_refl) as [Hd Ha].
    split; [|split].
    + tauto.
    + tauto.
    + split.
      * intros [H|H]; congruence.
      * intros [popup [early [H _]]]. rewrite Hp in H. discriminate H.
Qed.

(** The earlier copy tests a score against [null] only: a score that the
    record leaves out reads "undefined" there, where the later script
    shows the placeholder. *)
Lemma early_popup_prints_undefined (school : School) (avg : Q) :
  hasData school = true ->
  average school = Some avg ->
  engelsk school = Undefined ->
  (exists popup,
     EarlyPopup.createPopupContent school = Normal popup /\
     Js.includes popup "<b>Engelsk:</b> undefined<br>" = true) /\
  Popup.formatScore (engelsk school) = "*".
Proof.
  intros Hdata Havg Hscore. split; [|now rewrite Hscore].
  unfold EarlyPopup.createPopupContent. rewrite Hdata, Havg, Hscore.
  eexists. split; [reflexivity|].
  change "<b>Engelsk:</b> undefined<br>"
    with ("<b>Engelsk:</b> " +:+ EarlyPopup.formatScore Undefined +:+ "<br>").
  find_in_template.
Qed.

(** X7. A record without data gets the same popup whatever its scores,
    average and count are: the three placeholders and the words
    "Ingen data tilgjengelig". *)
Theorem nodata_popup_ignores_scores
    (year : option string) (school other : School) :
  hasData school = false ->
  hasData other = false ->
  name other = name school ->
  kommune other = kommune school ->
  history other = history school ->
  Popup.createPopupContent year other = Popup.createPopupContent year school /\
  exists popup,
    Popup.createPopupContent year school = Normal popup /\
    Js.includes popup "<b>Engelsk:</b> *&nbsp;&nbsp;<b>Lesing:</b> *&nbsp;&nbsp;<b>Regning:</b> *<br>" = true /\
    Js.includes popup "Ingen data tilgjengelig</i>" = true.
Proof.
  intros Hs Ho Hn Hk Hh.
  unfold Popup.createPopupContent, Popup.currentScores, Popup.historyHtml.
  rewrite Hs, Ho, Hn, Hk, Hh. split; [reflexivity|].
  eexists. split; [reflexivity|]. split.
  - do 7 apply includes_skip. apply includes_left. closed_text.
  - do 7 apply includes_skip. apply includes_left. closed_text.
Qed.

Lemma nodata_popup_ignores_scores_witness :
  Popup.createPopupContent None Samples.flostaWithScores =
  Popup.createPopupContent None Samples.flosta.
Proof.
  apply (nodata_popup_ignores_scores None Samples.flosta Samples.flostaWithScores);
    reflexivity.
Defined.

Lemma join_app (a b : list string) :
  Js.join (a ++ b) = Js.join a +:+ Js.join b.
Proof.
  induction a as [|x a IH]; [reflexivity|].
  cbn [app Js.join fold_right]. fold (Js.join (a ++ b)). fold (Js.join a).
  now rewrite IH, append_assoc.
Qed.

Lemma occursBefore_skip (pre x y s : string) :
  occursBefore x y s -> occursBefore x y (pre +:+ s).
Proof.
  intros [a [b [c ->]]]. exists (pre +:+ a), b, c. now rewrite append_assoc.
Qed.

Lemma occursBefore_left (post x y s : string) :
  occursBefore x y s -> occursBefore x y (s +:+ post).
Proof.
  intros [a [b [c ->]]]. exists a, b, (c +:+ post).
  now rewrite !append_assoc.
Qed.

Lemma rows_reversed (l1 l2 l3 : list HistoryEntry) (h1 h2 : HistoryEntry) :
  occursBefore (Popup.historyRow h2) (Popup.historyRow h1)
    (Js.join (map Popup.historyRow (rev (l1 ++ h1 :: l2 ++ h2 :: l3)))).
Proof.
  replace (rev (l1 ++ h1 :: l2 ++ h2 :: l3))
    with (rev l3 ++ h2 :: rev l2 ++ h1 :: rev l1).
  2:{ rewrite rev_app_distr. cbn [rev]. rewrite rev_app_distr. cbn [rev].
      rewrite <- !app_assoc. reflexivity. }
  rewrite map_app, join_app. cbn [map Js.join fold_right].
  rewrite map_app. fold (Js.join (map Popup.historyRow (rev l2) ++
                                  map Popup.historyRow (h1 :: rev l1))).
  rewrite join_app. cbn [map Js.join fold_right].
  fold (Js.join (map Popup.historyRow (rev l1))).
  exists (Js.join (map Popup.historyRow (rev l3))),
         (Js.join (map Popup.historyRow (rev l2))),
         (Js.join (map Popup.historyRow (rev l1))).
  reflexivity.
Qed.

(** X8. The history table lists the years in reverse order of the
    record's history list: of two entries of the list, the row of the
    later one stands before the row of the earlier one in the popup. *)
Theorem history_rows_reversed
    (year : option string) (school : School) (popup : string)
    (l1 l2 l3 : list HistoryEntry) (h1 h2 : HistoryEntry) :
  Popup.createPopupContent year school = Normal popup ->
  history school = l1 ++ h1 :: l2 ++ h2 :: l3 ->
  occursBefore (Popup.historyRow h2) (Popup.historyRow h1) popup.
Proof.
  intros Hpopup Hhist. unfold Popup.createPopupContent in Hpopup.
  destruct (Popup.currentScores school) as [scores|e]; [|discriminate Hpopup].
  injection Hpopup as <-.
  do 9 apply occursBefore_skip. apply occursBefore_left.
  unfold Popup.historyHtml. rewrite Hhist.
  assert (Hlen : (0 <? length (l1 ++ h1 :: l2 ++ h2 :: l3))%nat = true)
    by (apply Nat.ltb_lt; rewrite length_app; cbn [length]; lia).
  rewrite Hlen.
  apply occursBefore_skip, occursBefore_left, rows_reversed.
Qed.

Lemma history_rows_reversed_witness :
  exists popup,
    Popup.createPopupContent None Examples.withHistory = Normal popup /\
    occursBefore (Popup.historyRow Samples.entry2324)
      (Popup.historyRow Examples.entry2223) popup.
Proof.
  eexists. split; [reflexivity|].
  apply (history_rows_reversed None Examples.withHistory _
           [] [] [] Examples.entry2223 Samples.entry2324); reflexivity.
Defined.

Lemma tenths_int (n : Z) : Js.tenths (inject_Z n) = 10 * n.
Proof.
  unfold Js.tenths, Qfloor, Qplus, Qmult, inject_Z. cbn.
  symmetry. apply Z.div_unique with (r := 1); lia.
Qed.

Lemma toFixed1_nonneg_int (n : Z) :
  Js.toFixed1_nonneg (inject_Z n) = Js.numberToString n +:+ ".0".
Proof.
  unfold Js.toFixed1_nonneg. cbv zeta. rewrite tenths_int.
  replace (10 * n / 10) with n by (rewrite Z.mul_comm, Z.div_mul; lia).
  replace ((10 * n) mod 10) with 0 by (rewrite Z.mul_comm, Z.mod_mul; lia).
  reflexivity.
Qed.

(** A whole number printed with one decimal. *)
Lemma toFixed1_int (n : Z) :
  Js.toFixed1 (inject_Z n) = Js.numberToString n +:+ ".0".
Proof.
  unfold Js.toFixed1. destruct n as [|p|p].
  - reflexivity.
  - change (Js.ltb (inject_Z (Z.pos p)) 0) with false. cbv iota.
    apply toFixed1_nonneg_int.
  - change (Js.ltb (inject_Z (Z.neg p)) 0) with true. cbv iota.
    change (- inject_Z (Z.neg p))%Q with (inject_Z (Z.pos p)).
    rewrite toFixed1_nonneg_int. reflexivity.
Qed.

Lemma mean_of_equal (n k : Z) :
  0 < k -> (inject_Z (k * n) / inject_Z k == inject_Z n)%Q.
Proof.
  intros Hk. destruct k as [|p|p]; try lia.
  unfold Qeq, Qdiv, Qmult, Qinv, inject_Z. cbn. lia.
Qed.

(** X9. The average of a history row is taken over the scores that are
    present: a row whose present scores all equal [n] shows [n] with one
    decimal, however many of its three scores are missing, and a row
    without scores shows the placeholder. *)
Theorem row_average_over_present_scores (h : HistoryEntry) (n : Z) :
  (points (h_engelsk h) = None \/ points (h_engelsk h) = Some n) ->
  (points (h_lesing h) = None \/ points (h_lesing h) = Some n) ->
  (points (h_regning h) = None \/ points (h_regning h) = Some n) ->
  Popup.rowAverage h =
    match Popup.presentScores h with
    | [] => "*"
    | _ :: _ => Js.numberToString n +:+ ".0"
    end.
Proof.
  intros He Hl Hr. unfold Popup.rowAverage, Popup.presentScores.
  cbn [omap list_omap].
  destruct He as [-> | ->], Hl as [-> | ->], Hr as [-> | ->];
    cbn [length Nat.ltb Nat.leb Popup.sumScores fold_left];
    try reflexivity;
    rewrite <- toFixed1_int; apply toFixed1_proper;
    match goal with
    | |- (inject_Z ?s / inject_Z (Z.of_nat ?k) == _)%Q =>
        replace s with (Z.of_nat k * n) by (cbn; lia);
        apply mean_of_equal; cbn; lia
    end.
Qed.

Lemma row_average_over_present_scores_witness :
  Popup.rowAverage
    {| h_year := "2021-22"; h_engelsk := Null; h_lesing := Undefined;
       h_regning := Points 53 |} = "53.0".
Proof.
  apply (row_average_over_present_scores
           {| h_year := "2021-22"; h_engelsk := Null; h_lesing := Undefined;
              h_regning := Points 53 |} 53);
    [left | left | right]; reflexivity.
Defined.

End PopupMore.

(** ** Search, continued *)

Section SortStability.
Context {A : Type} (cmp : A -> A -> Z).

Lemma precedes_cons (a b y : A) (l : list A) :
  precedes a b (y :: l) <-> (y = a /\ In b l) \/ precedes a b l.
Proof.
  split.
  - intros [[|z l1] [l2 [l3 E]]]; cbn [app] in E; injection E as -> ->.
    + left. split; [reflexivity|]. apply in_or_app. right. now left.
    + right. exists l1, l2, l3. reflexivity.
  - intros [[-> Hin]|[l1 [l2 [l3 ->]]]].
    + apply in_split in Hin as [l2 [l3 ->]]. exists [], l2, l3. reflexivity.
    + exists (y :: l1), l2, l3. reflexivity.
Qed.

Lemma insertBy_in (x b : A) (l : list A) :
  In b l -> In b (Search.insertBy cmp x l).
Proof.
  intros H. apply (Permutation_in b (Permutation_sym (insertBy_perm cmp x l))).
  now right.
Qed.

Lemma insertBy_keeps_order (x a b : A) (l : list A) :
  precedes a b l -> precedes a b (Search.insertBy cmp x l).
Proof.
  induction l as [|y l IH]; intros H.
  - destruct H as [[|? ?] [? [? E]]]; discriminate E.
  - cbn [Search.insertBy]. destruct (0 <? cmp x y).
    + apply precedes_cons. apply precedes_cons in H as [[-> Hin]|H].
      * left. split; [reflexivity | now apply insertBy_in].
      * right. now apply IH.
    + apply precedes_cons. now right.
Qed.

Lemma insertBy_before (x b : A) (l : list A) :
  In b l -> cmp x b <= 0 -> precedes x b (Search.insertBy cmp x l).
Proof.
  intros Hin Hle. induction l as [|y l IH]; [destruct Hin|].
  cbn [Search.insertBy]. destruct (Z.ltb_spec 0 (cmp x y)) as [Hgt|_].
  - apply precedes_cons. right. apply IH.
    destruct Hin as [->|Hin]; [lia | exact Hin].
  - apply precedes_cons. left. split; [reflexivity | exact Hin].
Qed.

(** The sort is stable: of two elements that do not compare as "after",
    the one that stood first stays first. *)
Lemma arraySort_stable (a b : A) (l1 l2 l3 : list A) :
  cmp a b <= 0 ->
  precedes a b (Search.arraySort cmp (l1 ++ a :: l2 ++ b :: l3)).
Proof.
  intros Hle. induction l1 as [|x l1 IH]; cbn [app Search.arraySort fold_right].
  - apply insertBy_before; [|exact Hle].
    apply (Permutation_in b (Permutation_sym (arraySort_perm cmp _))).
    apply in_or_app. right. now left.
  - apply insertBy_keeps_order. exact IH.
Qed.

End SortStability.

Section SearchMore.
Context {host : Host}.

Lemma filter_keeps_order {A : Type} (f : A -> bool) (a b : A) (l1 l2 l3 : list A) :
  f a = true -> f b = true ->
  List.filter f (l1 ++ a :: l2 ++ b :: l3) =
    List.filter f l1 ++ a :: List.filter f l2 ++ b :: List.filter f l3.
Proof.
  intros Ha Hb. rewrite List.filter_app. cbn [List.filter]. rewrite Ha.
  rewrite List.filter_app. cbn [List.filter]. rewrite Hb. reflexivity.
Qed.

(** X10. Schools of the same name (in different municipalities, say)
    that match a query are listed in the order of the data set. *)
Theorem same_name_keeps_data_order
    (laws : HostLaws host) (query : string) (a b : School)
    (d1 d2 d3 : list School) :
  name a = name b ->
  Js.includes (toLowerCase (name a)) (toLowerCase query) = true ->
  precedes a b (Search.matchingSchools query (d1 ++ a :: d2 ++ b :: d3)).
Proof.
  intros Hname Hmatch. unfold Search.matchingSchools. cbv zeta.
  rewrite filter_keeps_order;
    [|exact Hmatch | unfold Search.isMatch; rewrite <- Hname; exact Hmatch].
  apply arraySort_stable.
  unfold Search.compareSchools. rewrite <- Hname.
  destruct (Js.startsWith (toLowerCase (name a)) (toLowerCase query));
    cbn [andb negb];
    destruct (Z.ltb_spec 0 (localeCompare (name a) (name a))) as [Hgt|Hle];
    try exact Hle; exact (localeCompare_total _ _ Hgt).
Qed.

(** Typing fewer than two characters (after trimming) searches
    nothing: whatever the data set and whatever was shown before, the
    result list is emptied and hidden, and the clear button shows exactly
    when something was typed. *)
Theorem short_query_clears
    (value : string) (data : list School) (ui : Search.SearchUi) :
  (Js.jsLength (trim value) < 2)%nat ->
  Search.onInput value data ui =
    {| Search.inputValue := value;
       Search.clearVisible := negb (Js.jsLength (trim value) =? 0)%nat;
       Search.resultsHtml := "";
       Search.resultsVisible := false |}.
Proof.
  intros Hshort. unfold Search.onInput. cbv zeta.
  destruct (Nat.leb_spec 2 (Js.jsLength (trim value))) as [|_]; [lia|].
  cbn [Search.clearVisible]. f_equal.
  destruct (Js.jsLength (trim value)) as [|n]; reflexivity.
Qed.

Lemma matching_nil (query : string) (data : list School) :
  Search.matchingSchools query data = [] <->
  (forall s, In s data -> Search.isMatch (toLowerCase query) s = false).
Proof.
  unfold Search.matchingSchools. cbv zeta. split.
  - intros Hnil s Hin. destruct (Search.isMatch (toLowerCase query) s) eqn:E;
      [|reflexivity].
    exfalso.
    assert (Hs : In s (Search.arraySort (Search.compareSchools (toLowerCase query))
                         (List.filter (fun school => Search.isMatch (toLowerCase query) school) data))).
    { apply (Permutation_in s (Permutation_sym (arraySort_perm _ _))).
      apply filter_In. now split. }
    rewrite Hnil in Hs. destruct Hs.
  - intros Hnone.
    replace (List.filter (fun school => Search.isMatch (toLowerCase query) school) data)
      with (@nil School); [reflexivity|].
    symmetry. induction data as [|s data IH]; [reflexivity|].
    cbn [List.filter]. rewrite (Hnone s (or_introl eq_refl)).
    apply IH. intros s' Hs'. apply Hnone. now right.
Qed.

(** X12. The result list has one row per match up to ten.  When no
    school matches, and only then, the markup is the line
    "Ingen skoler funnet"; with one to ten matches it is the rows of all
    matches and nothing after them. *)
Theorem few_or_no_results
    (query : string) (data : list School) (ui : Search.SearchUi) :
  let matching := Search.matchingSchools query data in
  let shown := Search.performSearch query data ui in
  length (Search.resultRows query matching) = Nat.min 10 (length matching) /\
  ((forall s, In s data -> Search.isMatch (toLowerCase query) s = false) <->
   Search.resultsHtml shown = Search.noResults) /\
  ((0 < length matching <= 10)%nat ->
   Search.resultsHtml shown = Js.join (map (Search.resultRow query) matching)) /\
  Search.resultsVisible shown = true.
Proof.
  intros matching shown.
  split; [|split; [|split; [|reflexivity]]].
  - unfold Search.resultRows, Search.resultsToShow, Search.maxResults.
    now rewrite length_map, length_firstn.
  - rewrite <- matching_nil. fold matching.
    unfold shown, Search.performSearch. cbn [Search.resultsHtml]. fold matching.
    unfold Search.resultsMarkup.
    destruct matching as [|s rest]; [split; reflexivity|].
    split; [discriminate|]. intros H. exfalso.
    exact (rows_not_noResults query s rest H).
  - intros [Hpos Hmax].
    unfold shown, Search.performSearch. cbn [Search.resultsHtml]. fold matching.
    unfold Search.resultsMarkup, Search.resultRows, Search.resultsToShow,
      Search.maxResults.
    destruct (Nat.ltb_spec 0 (length matching)); [|lia].
    destruct (Nat.ltb_spec 10 (length matching)); [lia|].
    rewrite firstn_all2 by lia. reflexivity.
Qed.

End SearchMore.

Lemma same_name_keeps_data_order_witness :
  precedes (schoolData Examples.sentrumBergen) (schoolData Examples.sentrumOslo)
    (@Search.matchingSchools AsciiHost.asciiHost "sentrum"
       ([] ++ schoolData Examples.sentrumBergen ::
        [Examples.osloSkole] ++ schoolData Examples.sentrumOslo :: [])).
Proof.
  apply (@same_name_keeps_data_order AsciiHost.asciiHost asciiHost_laws);
    reflexivity.
Defined.

Lemma short_query_clears_witness :
  Search.resultsHtml
    (@Search.onInput AsciiHost.asciiHost " a " Examples.threeSchools
       {| Search.inputValue := "aa"; Search.clearVisible := true;
          Search.resultsHtml := "old"; Search.resultsVisible := true |}) = "".
Proof.
  rewrite (@short_query_clears AsciiHost.asciiHost " a " Examples.threeSchools).
  - reflexivity.
  - vm_compute. lia.
Defined.

Lemma few_or_no_results_witness :
  Search.resultsHtml
    (@Search.performSearch AsciiHost.asciiHost "oslo" Examples.threeSchools
       Examples.emptyUi) =
  Js.join (map (@Search.resultRow AsciiHost.asciiHost "oslo")
             [Examples.osloSkole; Examples.nyOslo]).
Proof.
  apply (proj1 (proj2 (proj2
           (@few_or_no_results AsciiHost.asciiHost "oslo" Examples.threeSchools
              Examples.emptyUi)))).
  vm_compute. lia.
Defined.

Section EscapeFacts.

Lemma includes_nbsp (c : ascii) (rest : string) :
  Js.includes (String c rest) nbsp = false ->
  Js.includes rest nbsp = false /\
  match rest with
  | String c2 _ =>
      Ascii.eqb c (ascii_of_nat 194) && Ascii.eqb c2 (ascii_of_nat 160) = false
  | EmptyString => True
  end.
Proof.
  cbn [Js.includes]. intros H. apply orb_false_iff in H as [Hstart Hrest].
  split; [exact Hrest|]. destruct rest as [|c2 rest2]; [exact I|].
  unfold nbsp in Hstart. cbn [Js.startsWith] in Hstart.
  destruct rest2; cbn [Js.startsWith] in Hstart; now rewrite andb_true_r in Hstart.
Qed.

(** X13. Escaping changes only the ampersand, the two angle brackets and
    the no-break space: text without them comes back as it is, and so a
    double quote, which the result rows write between double quotes, is
    not escaped. *)
Theorem escapeHtml_plain_text (text : string) :
  Js.includes text "&" = false ->
  Js.includes text "<" = false ->
  Js.includes text ">" = false ->
  Js.includes text nbsp = false ->
  Search.escapeHtml text = text.
Proof.
  induction text as [|c rest IH]; intros Hamp Hlt Hgt Hsp; [reflexivity|].
  rewrite includes_char in Hamp, Hlt, Hgt.
  apply orb_false_iff in Hamp as [Ha Hamp], Hlt as [Hl Hlt], Hgt as [Hg Hgt].
  apply includes_nbsp in Hsp as [Hsp Hpair].
  specialize (IH Hamp Hlt Hgt Hsp).
  destruct rest as [|c2 rest2].
  - cbn [Search.escapeHtml]. now rewrite Ha, Hl, Hg.
  - remember (String c2 rest2) as rest eqn:E.
    cbn [Search.escapeHtml]. rewrite Ha, Hl, Hg. subst rest. cbv beta iota.
    rewrite Hpair. f_equal. exact IH.
Qed.

Lemma escapeHtml_plain_text_witness :
  Search.escapeHtml (Js.html "Skole 'Nord' på Ås") = Js.html "Skole 'Nord' på Ås".
Proof.
  apply escapeHtml_plain_text; reflexivity.
Defined.

Import Regex.

Lemma backslash_special (c : ascii) :
  isSpecial c = false -> Ascii.eqb c "\" = false.
Proof.
  intros H. destruct (Ascii.eqb_spec c "\") as [->|_]; [|reflexivity].
  discriminate H.
Qed.

Lemma escapeRegex_length (text : string) :
  String.length (escapeRegex text) =
    (String.length text + countSpecial text)%nat.
Proof.
  induction text as [|c rest IH]; [reflexivity|].
  cbn [escapeRegex countSpecial]. destruct (isSpecial c);
    cbn [String.length]; rewrite IH; lia.
Qed.

(** X14. The escaped query is a pattern without operators that stands
    for the query itself, character by character; escaping goes piece by
    piece, adds one backslash per syntax character, and leaves text
    without syntax characters as it is. *)
Theorem escapeRegex_is_literal (text other : string) :
  literalOf (escapeRegex text) = Some text /\
  escapeRegex (text +:+ other) = escapeRegex text +:+ escapeRegex other /\
  String.length (escapeRegex text) =
    (String.length text + countSpecial text)%nat /\
  (countSpecial text = 0%nat <-> escapeRegex text = text).
Proof.
  split; [|split; [|split]].
  - induction text as [|c rest IH]; [reflexivity|].
    cbn [escapeRegex]. destruct (isSpecial c) eqn:E.
    + cbn [literalOf]. change (Ascii.eqb "\" "\") with true. cbv iota.
      rewrite E, IH. reflexivity.
    + cbn [literalOf]. rewrite (backslash_special c E), E, IH. reflexivity.
  - induction text as [|c rest IH]; [reflexivity|].
    rewrite append_cons. cbn [escapeRegex]. rewrite IH.
    destruct (isSpecial c); reflexivity.
  - apply escapeRegex_length.
  - split.
    + intros Hnone. induction text as [|c rest IH]; [reflexivity|].
      cbn [escapeRegex countSpecial] in *. destruct (isSpecial c); [lia|].
      f_equal. apply IH. lia.
    + intros Hsame. apply (f_equal String.length) in Hsame.
      rewrite escapeRegex_length in Hsame. lia.
Qed.

End EscapeFacts.

(** ** Loading, continued *)

Section LoaderMore.

Lemma createSchoolMarker_run (year : option string) (school : School) :
  Markers.createSchoolMarker year school =
    if renderable school then Normal (builtMarker year school)
    else Abrupt TypeError.
Proof.
  unfold Markers.createSchoolMarker. destruct (renderable school) eqn:E.
  - rewrite (renderable_popup year school E). reflexivity.
  - rewrite (proj1 (unrenderable_popup year school E)). reflexivity.
Qed.

Lemma createSchoolMarkers_run (schools : list School) :
  forall app : App,
    Markers.createSchoolMarkers schools app =
      (if forallb renderable schools then Normal tt else Abrupt TypeError,
       afterMarkers app (renderablePrefix schools)).
Proof.
  unfold Markers.createSchoolMarkers.
  induction schools as [|school rest IH]; intros app.
  - cbn. unfold ret, afterMarkers, registerAll. cbn.
    destruct app. cbn. now rewrite app_nil_r.
  - cbn [forEach forallb renderablePrefix].
    unfold bind at 1. unfold bind at 1. unfold read at 1. cbv beta iota.
    unfold bind at 1. unfold lift at 1. cbv beta iota.
    rewrite createSchoolMarker_run.
    destruct (renderable school) eqn:E; cbn [andb].
    + unfold bind at 1. unfold emit at 1. cbv beta iota.
      unfold setSchoolMarker at 1. cbv beta iota.
      rewrite IH. f_equal.
      unfold afterMarkers, registerAll, logged. cbn.
      now rewrite <- app_assoc.
    + unfold afterMarkers, registerAll. cbn.
      destruct app. cbn. now rewrite app_nil_r.
Qed.

Lemma load_run (status : Z) (data : Dataset) (app : App) :
  Loader.loadSchoolData (Response true status (Some data)) app =
    (Normal tt, loadedApp data app).
Proof.
  unfold Loader.loadSchoolData, catch, Loader.readResponse. cbn [negb].
  unfold bind at 1. unfold ret at 1. cbv beta iota.
  unfold Loader.render.
  unfold bind at 1. unfold emit at 1. cbv beta iota.
  unfold bind at 1.
  assert (Hyear :
    (if truthy (metadataYear data) then setYear (metadataYear data) else ret tt)
      (logged app [loadedLine data]) =
    (Normal tt,
     {| schoolsData := schoolsData app;
        schoolMarkers := schoolMarkers app;
        SCHOOL_DATA_YEAR := yearAfter data app;
        searchBoxPresent := searchBoxPresent app;
        trace := trace app ++ [loadedLine data] |})).
  { unfold yearAfter. destruct (truthy (metadataYear data)); reflexivity. }
  fold (loadedLine data). rewrite Hyear. clear Hyear.
  unfold bind at 1. unfold setSchoolsData at 1. cbv beta iota.
  cbn [schoolsData schoolMarkers SCHOOL_DATA_YEAR searchBoxPresent trace].
  unfold bind at 1.
  assert (Hview : forall a : App,
    match mapConfig data with
    | Some cfg => emit (SetView (fst (center cfg)) (snd (center cfg)) (zoom cfg))
    | None => ret tt
    end a = (Normal tt, logged a (viewEffects data))).
  { intros a. unfold viewEffects. destruct (mapConfig data); [reflexivity|].
    unfold ret, logged. destruct a. cbn. now rewrite app_nil_r. }
  rewrite Hview. clear Hview.
  unfold bind at 1. rewrite createSchoolMarkers_run.
  unfold loadedApp. cbv zeta.
  destruct (forallb renderable (schools data)).
  - unfold bind at 1. unfold emit at 1. cbv beta iota.
    unfold bind at 1. unfold Loader.initializeSearch.
    unfold bind at 1. unfold read at 1. cbv beta iota.
    cbn [logged afterMarkers schoolsData schoolMarkers SCHOOL_DATA_YEAR
         searchBoxPresent trace].
    destruct (searchBoxPresent app); cbn [negb searchEffects].
    + unfold emit, logged. cbn. f_equal. f_equal.
      rewrite <- !app_assoc. reflexivity.
    + unfold bind, emit, logged. cbn. f_equal. f_equal.
      rewrite <- !app_assoc. reflexivity.
  - unfold Loader.onError, bind, emit, logged, afterMarkers, failureReport.
    cbn. f_equal. f_equal. rewrite <- !app_assoc. reflexivity.
Qed.

Lemma renderablePrefix_all (schools : list School) :
  forallb renderable schools = true -> renderablePrefix schools = schools.
Proof.
  induction schools as [|s rest IH]; [reflexivity|].
  cbn [forallb renderablePrefix]. intros H.
  apply andb_true_iff in H as [-> H]. now rewrite IH.
Qed.

Lemma renderablePrefix_stop (good rest : list School) (bad : School) :
  forallb renderable good = true ->
  renderable bad = false ->
  renderablePrefix (good ++ bad :: rest) = good /\
  forallb renderable (good ++ bad :: rest) = false.
Proof.
  intros Hgood Hbad. induction good as [|s good IH].
  - cbn. now rewrite Hbad.
  - cbn [forallb] in Hgood. apply andb_true_iff in Hgood as [Hs Hgood].
    destruct (IH Hgood) as [IH1 IH2].
    cbn [app renderablePrefix forallb]. now rewrite Hs, IH1, IH2.
Qed.

Lemma addedMarkers_app (a b : list Effect) :
  addedMarkers (a ++ b) = addedMarkers a ++ addedMarkers b.
Proof.
  induction a as [|e a IH]; [reflexivity|].
  destruct e; cbn [app addedMarkers]; now rewrite IH.
Qed.

Lemma addedMarkers_map (f : School -> Marker) (l : list School) :
  addedMarkers (map (fun s => AddToCluster (f s)) l) = map f l.
Proof. induction l as [|s l IH]; [reflexivity|]. cbn. now rewrite IH. Qed.

Lemma alertsIn_app (a b : list Effect) :
  alertsIn (a ++ b) = alertsIn a ++ alertsIn b.
Proof.
  induction a as [|e a IH]; [reflexivity|].
  destruct e; cbn [app alertsIn]; now rewrite IH.
Qed.

Lemma alertsIn_map (f : School -> Marker) (l : list School) :
  alertsIn (map (fun s => AddToCluster (f s)) l) = [].
Proof. induction l as [|s l IH]; [reflexivity|]. exact IH. Qed.

Lemma quiet_view (data : Dataset) :
  addedMarkers (viewEffects data) = [] /\ alertsIn (viewEffects data) = [].
Proof. unfold viewEffects. destruct (mapConfig data); split; reflexivity. Qed.

Lemma quiet_search (present : bool) :
  addedMarkers (searchEffects present) = [] /\
  alertsIn (searchEffects present) = [].
Proof. destruct present; split; reflexivity. Qed.

Lemma built_records (year : option string) (l : list School) :
  map schoolData
    (addedMarkers (map (fun s => AddToCluster (builtMarker year s)) l)) = l.
Proof. induction l as [|s l IH]; [reflexivity|]. cbn. now rewrite IH. Qed.

(** X15. A load whose records can all be rendered does, in this order:
    log the number of schools, set the view if the document has one,
    add one marker per school in the order of the document (each with
    its record, colour and popup), add the layer to the map, install the
    search handlers (or schedule a retry when the search box is not
    there yet) and log success.  The school list and the year are stored
    and no alert is shown. *)
Theorem successful_load_renders_all (status : Z) (data : Dataset) (app : App) :
  forallb renderable (schools data) = true ->
  let app' := snd (Loader.loadSchoolData (Response true status (Some data)) app) in
  fst (Loader.loadSchoolData (Response true status (Some data)) app) = Normal tt /\
  schoolsData app' = schools data /\
  SCHOOL_DATA_YEAR app' = yearAfter data app /\
  trace app' =
    trace app ++ [loadedLine data] ++ viewEffects data ++
    map (fun school => AddToCluster (builtMarker (yearAfter data app) school))
        (schools data) ++
    [AddClusterToMap] ++ searchEffects (searchBoxPresent app) ++
    [ConsoleLog "✓ Map initialized successfully!"] /\
  map schoolData (addedMarkers (trace app')) =
    map schoolData (addedMarkers (trace app)) ++ schools data /\
  alertsIn (trace app') = alertsIn (trace app).
Proof.
  intros Hall app'. unfold app'. rewrite load_run. cbn [fst snd].
  unfold loadedApp. cbv zeta.
  cbn [schoolsData SCHOOL_DATA_YEAR trace].
  rewrite Hall, (renderablePrefix_all _ Hall).
  split; [reflexivity|]. split; [reflexivity|]. split; [reflexivity|].
  split; [reflexivity|].
  destruct (quiet_view data) as [Hv1 Hv2].
  destruct (quiet_search (searchBoxPresent app)) as [Hs1 Hs2].
  split.
  - rewrite !addedMarkers_app, Hv1, Hs1.
    change (addedMarkers [loadedLine data]) with (@nil Marker).
    change (addedMarkers [AddClusterToMap]) with (@nil Marker).
    change (addedMarkers [ConsoleLog "✓ Map initialized successfully!"])
      with (@nil Marker).
    rewrite !app_nil_l, !app_nil_r, map_app. now rewrite built_records.
  - rewrite !alertsIn_app, Hv2, Hs2, alertsIn_map.
    change (alertsIn [loadedLine data]) with (@nil string).
    change (alertsIn [AddClusterToMap]) with (@nil string).
    change (alertsIn [ConsoleLog "✓ Map initialized successfully!"])
      with (@nil string).
    now rewrite !app_nil_r.
Qed.

Lemma successful_load_renders_all_witness :
  map schoolData
    (addedMarkers
       (trace (snd (Loader.loadSchoolData
                      (Response true 200
                         (Some {| schools := Examples.threeSchools;
                                  metadataYear := Some "2024-25";
                                  mapConfig := None |}))
                      (initialApp true))))) = Examples.threeSchools.
Proof.
  apply (successful_load_renders_all 200
           {| schools := Examples.threeSchools;
              metadataYear := Some "2024-25"; mapConfig := None |}
           (initialApp true)).
  reflexivity.
Defined.

(** X16. A record that cannot be rendered stops the load where it
    stands: the schools before it have their markers, it and the schools
    after it have none, the layer is never added to the map and the
    search is never set up; the failure is logged and alerted.  The
    school list has been stored all the same, the bad record included. *)
Theorem bad_record_stops_load
    (status : Z) (data : Dataset) (app : App)
    (good rest : list School) (bad : School) :
  schools data = good ++ bad :: rest ->
  forallb renderable good = true ->
  renderable bad = false ->
  let app' := snd (Loader.loadSchoolData (Response true status (Some data)) app) in
  fst (Loader.loadSchoolData (Response true status (Some data)) app) = Normal tt /\
  schoolsData app' = good ++ bad :: rest /\
  trace app' =
    trace app ++ [loadedLine data] ++ viewEffects data ++
    map (fun school => AddToCluster (builtMarker (yearAfter data app) school)) good ++
    failureReport TypeError /\
  map schoolData (addedMarkers (trace app')) =
    map schoolData (addedMarkers (trace app)) ++ good.
Proof.
  intros Hsplit Hgood Hbad app'. unfold app'. rewrite load_run. cbn [fst snd].
  unfold loadedApp. cbv zeta. cbn [schoolsData trace].
  rewrite Hsplit.
  destruct (renderablePrefix_stop good rest bad Hgood Hbad) as [-> ->].
  split; [reflexivity|]. split; [reflexivity|]. split; [reflexivity|].
  destruct (quiet_view data) as [Hv1 _].
  rewrite !addedMarkers_app, Hv1.
  change (addedMarkers [loadedLine data]) with (@nil Marker).
  change (addedMarkers (failureReport TypeError)) with (@nil Marker).
  rewrite !app_nil_l, !app_nil_r, map_app. now rewrite built_records.
Qed.

Lemma bad_record_stops_load_witness :
  let outcome :=
    Response true 200
      (Some {| schools := [Examples.osloSkole; Samples.broken; Examples.bergen];
               metadataYear := None; mapConfig := None |}) in
  schoolsData (snd (Loader.loadSchoolData outcome (initialApp true))) =
    [Examples.osloSkole; Samples.broken; Examples.bergen] /\
  map schoolData
    (addedMarkers (trace (snd (Loader.loadSchoolData outcome (initialApp true))))) =
    [Examples.osloSkole].
Proof.
  destruct (bad_record_stops_load 200
              {| schools := [Examples.osloSkole; Samples.broken; Examples.bergen];
                 metadataYear := None; mapConfig := None |}
              (initialApp true) [Examples.osloSkole] [Examples.bergen]
              Samples.broken eq_refl eq_refl eq_refl)
    as [_ [Hdata [_ Hmarkers]]].
  split; [exact Hdata | exact Hmarkers].
Defined.

(** X17. Loading never throws, and it shows exactly one alert when it
    fails, whatever the reason (the request, the status, the body or a
    record), and none when it goes through. *)
Theorem load_alerts_once_on_failure (outcome : FetchOutcome) (app : App) :
  fst (Loader.loadSchoolData outcome app) = Normal tt /\
  alertsIn (trace (snd (Loader.loadSchoolData outcome app))) =
    alertsIn (trace app) ++
    (if loadSucceeds outcome then []
     else ["Failed to load school data. Please ensure school-data.json exists."]).
Proof.
  destruct outcome as [|[|] status [data|]].
  - split; [reflexivity|].
    unfold Loader.loadSchoolData, catch, bind, Loader.readResponse, throw,
      Loader.onError, emit, logged. cbn. now rewrite <- !app_assoc, !alertsIn_app.
  - rewrite load_run. cbn [fst snd loadSucceeds]. split; [reflexivity|].
    unfold loadedApp. cbv zeta. cbn [trace].
    destruct (quiet_view data) as [_ Hv].
    destruct (quiet_search (searchBoxPresent app)) as [_ Hs].
    rewrite !alertsIn_app, Hv, alertsIn_map.
    destruct (forallb renderable (schools data)).
    + rewrite !alertsIn_app, Hs. reflexivity.
    + reflexivity.
  - split; [reflexivity|].
    unfold Loader.loadSchoolData, catch, bind, Loader.readResponse, throw,
      Loader.onError, emit, logged. cbn. now rewrite <- !app_assoc, !alertsIn_app.
  - split; [reflexivity|].
    unfold Loader.loadSchoolData, catch, bind, Loader.readResponse, throw,
      Loader.onError, emit, logged. cbn. now rewrite <- !app_assoc, !alertsIn_app.
  - split; [reflexivity|].
    unfold Loader.loadSchoolData, catch, bind, Loader.readResponse, throw,
      Loader.onError, emit, logged. cbn. now rewrite <- !app_assoc, !alertsIn_app.
Qed.

Lemma lookup_registerAll_other (year : option string) (key : string)
    (l : list School) :
  forall table : gmap string (Marker * School),
    (forall s, In s l -> Markers.uniqueKey s <> key) ->
    registerAll year l table !! key = table !! key.
Proof.
  unfold registerAll. induction l as [|s l IH]; intros table Hne; [reflexivity|].
  cbn [fold_left]. rewrite IH by (intros s' Hs'; apply Hne; now right).
  apply lookup_insert_ne. apply Hne. now left.
Qed.

Lemma lookup_registerAll_last (year : option string) (s : School)
    (l1 l2 : list School) (table : gmap string (Marker * School)) :
  (forall s', In s' l2 -> Markers.uniqueKey s' <> Markers.uniqueKey s) ->
  registerAll year (l1 ++ s :: l2) table !! Markers.uniqueKey s =
    Some (builtMarker year s, s).
Proof.
  intros Hne. unfold registerAll. rewrite fold_left_app. cbn [fold_left].
  fold (registerAll year l1 table).
  fold (registerAll year l2
          (<[Markers.uniqueKey s := (builtMarker year s, s)]>
             (registerAll year l1 table))).
  rewrite (lookup_registerAll_other year _ l2 _ Hne).
  apply lookup_insert_eq.
Qed.

(** X18. After a load that goes through, the marker table maps the key
    [name|kommune] of every school of the document to that school's
    marker and record; when several schools have the same key the last
    one is kept; entries under other keys are as before. *)
Theorem marker_table_after_load (status : Z) (data : Dataset) (app : App) :
  forallb renderable (schools data) = true ->
  let app' := snd (Loader.loadSchoolData (Response true status (Some data)) app) in
  (forall l1 s l2,
      schools data = l1 ++ s :: l2 ->
      (forall s', In s' l2 -> Markers.uniqueKey s' <> Markers.uniqueKey s) ->
      schoolMarkers app' !! Markers.uniqueKey s =
        Some (builtMarker (yearAfter data app) s, s)) /\
  (forall key,
      (forall s, In s (schools data) -> Markers.uniqueKey s <> key) ->
      schoolMarkers app' !! key = schoolMarkers app !! key).
Proof.
  intros Hall app'. unfold app'. rewrite load_run. cbn [snd].
  unfold loadedApp. cbv zeta. cbn [schoolMarkers].
  rewrite (renderablePrefix_all _ Hall). split.
  - intros l1 s l2 -> Hne. now apply lookup_registerAll_last.
  - intros key Hne. now apply lookup_registerAll_other.
Qed.

Lemma marker_table_after_load_witness :
  schoolMarkers
    (snd (Loader.loadSchoolData
            (Response true 200
               (Some {| schools := Examples.threeSchools;
                        metadataYear := None; mapConfig := None |}))
            (initialApp true))) !! "Bergen skole|Bergen" =
  Some (builtMarker None Examples.bergen, Examples.bergen).
Proof.
  apply (proj1 (marker_table_after_load 200
                  {| schools := Examples.threeSchools;
                     metadataYear := None; mapConfig := None |}
                  (initialApp true) eq_refl)
           [Examples.nyOslo] Examples.bergen [Examples.osloSkole] eq_refl).
  intros s' [<-|[]]. discriminate.
Defined.

Lemma bar_splits (x : string) :
  forall y u v : string,
    Js.includes x "|" = false ->
    Js.includes y "|" = false ->
    x +:+ "|" +:+ u = y +:+ "|" +:+ v ->
    x = y /\ u = v.
Proof.
  induction x as [|c x IH]; intros [|d y] u v Hx Hy E.
  - rewrite !append_nil in E. change ("|" +:+ u) with (String "|" u) in E.
    change ("|" +:+ v) with (String "|" v) in E. injection E as ->. now split.
  - exfalso. rewrite append_nil, append_cons in E.
    change ("|" +:+ u) with (String "|" u) in E. injection E as <- _.
    rewrite includes_char in Hy. discriminate Hy.
  - exfalso. rewrite append_nil, append_cons in E.
    change ("|" +:+ v) with (String "|" v) in E. injection E as -> _.
    rewrite includes_char in Hx. discriminate Hx.
  - rewrite !append_cons in E. injection E as -> E.
    rewrite includes_char in Hx, Hy.
    apply orb_false_iff in Hx as [_ Hx], Hy as [_ Hy].
    destruct (IH y u v Hx Hy E) as [-> ->]. now split.
Qed.

(** X19. The table key tells schools apart as long as no name contains
    the separator: two schools whose names have no vertical bar and whose
    keys are equal have the same name and the same municipality. *)
Theorem unique_key_tells_schools_apart (a b : School) :
  Js.includes (name a) "|" = false ->
  Js.includes (name b) "|" = false ->
  Markers.uniqueKey a = Markers.uniqueKey b ->
  name a = name b /\ kommune a = kommune b.
Proof. intros Ha Hb. unfold Markers.uniqueKey. now apply bar_splits. Qed.

Lemma unique_key_tells_schools_apart_witness :
  name (schoolData Examples.sentrumBergen) =
    name (Examples.school "Sentrum skole" "Bergen" None None) /\
  kommune (schoolData Examples.sentrumBergen) =
    kommune (Examples.school "Sentrum skole" "Bergen" None None).
Proof.
  apply (unique_key_tells_schools_apart (schoolData Examples.sentrumBergen)
           (Examples.school "Sentrum skole" "Bergen" None None)); reflexivity.
Defined.

Lemma loadedApp_markers (data : Dataset) (app : App) :
  map schoolData (addedMarkers (trace (loadedApp data app))) =
    map schoolData (addedMarkers (trace app)) ++ renderablePrefix (schools data).
Proof.
  unfold loadedApp. cbv zeta. cbn [trace].
  destruct (quiet_view data) as [Hv _].
  destruct (quiet_search (searchBoxPresent app)) as [Hs _].
  rewrite !addedMarkers_app, Hv.
  change (addedMarkers [loadedLine data]) with (@nil Marker).
  assert (Htail : addedMarkers
            (if forallb renderable (schools data)
             then [AddClusterToMap] ++ searchEffects (searchBoxPresent app) ++
                  [ConsoleLog "✓ Map initialized successfully!"]
             else failureReport TypeError) = []).
  { destruct (forallb renderable (schools data)); [|reflexivity].
    rewrite !addedMarkers_app, Hs. reflexivity. }
  rewrite Htail, !app_nil_l, !app_nil_r, map_app. now rewrite built_records.
Qed.

(** X20. Every school of a document that loaded can be navigated to:
    whatever order the cluster group returns its layers in, [zoomToSchool]
    called with the school's name and municipality finds a marker with
    that name and municipality, sets the view on it and schedules its
    popup; it never reports "Marker not found". *)
Theorem loaded_school_is_found
    (status : Z) (data : Dataset) (app now : App)
    (allMarkers : list Marker) (s : School) :
  forallb renderable (schools data) = true ->
  Permutation allMarkers
    (addedMarkers
       (trace (snd (Loader.loadSchoolData (Response true status (Some data)) app)))) ->
  In s (schools data) ->
  exists target,
    Navigation.findMarker (name s) (kommune s) allMarkers = Some target /\
    name (schoolData target) = name s /\
    kommune (schoolData target) = kommune s /\
    Navigation.zoomToSchool (name s) (kommune s) allMarkers now =
      (Normal tt,
       logged now
         [SetView (lat (schoolData target)) (lng (schoolData target)) 15;
          SetTimeout (OpenPopupWhenSettled target) 1000]).
Proof.
  intros Hall Hperm Hin. rewrite load_run in Hperm. cbn [snd] in Hperm.
  assert (Hm : exists m, In m allMarkers /\ schoolData m = s).
  { assert (Hs : In s (map schoolData (addedMarkers (trace (loadedApp data app))))).
    { rewrite loadedApp_markers, (renderablePrefix_all _ Hall).
      apply in_or_app. now right. }
    apply in_map_iff in Hs as [m [Hms Hm]]. exists m. split; [|exact Hms].
    exact (Permutation_in m (Permutation_sym Hperm) Hm). }
  destruct Hm as [m [Hm Hms]].
  pose proof (findMarker_first (name s) (kommune s) allMarkers) as Hfind.
  unfold Navigation.zoomToSchool.
  destruct (Navigation.findMarker (name s) (kommune s) allMarkers) as [target|].
  - destruct Hfind as [_ [_ [_ [H1 [H2 _]]]]].
    exists target. repeat split; try assumption.
    unfold bind, emit. now rewrite logged_logged.
  - exfalso. apply (Hfind m Hm). now rewrite Hms.
Qed.

Lemma loaded_school_is_found_witness :
  exists target,
    Navigation.findMarker "Oslo Skole" "Oslo"
      (rev (map (builtMarker None) Examples.threeSchools)) = Some target /\
    name (schoolData target) = "Oslo Skole".
Proof.
  destruct (loaded_school_is_found 200
              {| schools := Examples.threeSchools;
                 metadataYear := None; mapConfig := None |}
              (initialApp true) (initialApp true)
              (rev (map (builtMarker None) Examples.threeSchools))
              Examples.osloSkole eq_refl)
    as [target [Hfind [Hname _]]].
  - apply Permutation_sym, Permutation_rev.
  - right. right. left. reflexivity.
  - exists target. split; [exact Hfind | exact Hname].
Defined.

Lemma early_createSchoolMarker_run (school : School) :
  EarlyLoader.createSchoolMarker school =
    if renderable school then Normal (builtCircle school) else Abrupt TypeError.
Proof.
  unfold EarlyLoader.createSchoolMarker. destruct (renderable school) eqn:E.
  - rewrite (renderable_early_popup school E). reflexivity.
  - rewrite (proj2 (unrenderable_popup None school E)). reflexivity.
Qed.

Lemma logged_nil (app : App) : logged app [] = app.
Proof. destruct app. unfold logged. cbn. now rewrite app_nil_r. Qed.

Lemma early_createSchoolMarkers_run (schools : list School) :
  forall app : App,
    EarlyLoader.createSchoolMarkers schools app =
      (if forallb renderable schools then Normal tt else Abrupt TypeError,
       logged app
         (map (fun s => AddCircleToCluster (builtCircle s))
              (renderablePrefix schools))).
Proof.
  unfold EarlyLoader.createSchoolMarkers.
  induction schools as [|school rest IH]; intros app.
  - cbn. unfold ret. now rewrite logged_nil.
  - cbn [forEach forallb renderablePrefix].
    unfold bind at 1. unfold bind at 1. unfold lift at 1. cbv beta iota.
    rewrite early_createSchoolMarker_run.
    destruct (renderable school); cbn [andb].
    + unfold emit at 1. cbv beta iota. rewrite IH, logged_logged. reflexivity.
    + cbn [map]. now rewrite logged_nil.
Qed.

Lemma early_load_run (status : Z) (data : Dataset) (app : App) :
  EarlyLoader.loadSchoolData (Response true status (Some data)) app =
    (Normal tt,
     logged app
       ([loadedLine data] ++ viewEffects data ++
        map (fun s => AddCircleToCluster (builtCircle s))
            (renderablePrefix (schools data)) ++
        (if forallb renderable (schools data)
         then [AddClusterToMap; ConsoleLog "✓ Map initialized successfully!"]
         else failureReport TypeError))).
Proof.
  unfold EarlyLoader.loadSchoolData, catch, Loader.readResponse. cbn [negb].
  unfold bind at 1. unfold ret at 1. cbv beta iota.
  unfold EarlyLoader.render.
  unfold bind at 1. unfold emit at 1. cbv beta iota. fold (loadedLine data).
  unfold bind at 1.
  assert (Hview : forall a : App,
    match mapConfig data with
    | Some cfg => emit (SetView (fst (center cfg)) (snd (center cfg)) (zoom cfg))
    | None => ret tt
    end a = (Normal tt, logged a (viewEffects data))).
  { intros a. unfold viewEffects. destruct (mapConfig data); [reflexivity|].
    unfold ret. now rewrite logged_nil. }
  rewrite Hview. clear Hview.
  unfold bind at 1. rewrite early_createSchoolMarkers_run.
  destruct (forallb renderable (schools data)).
  - unfold bind, emit. now rewrite !logged_logged.
  - unfold Loader.onError, bind, emit. now rewrite !logged_logged.
Qed.

Lemma addedCircles_app (a b : list Effect) :
  addedCircles (a ++ b) = addedCircles a ++ addedCircles b.
Proof.
  induction a as [|e a IH]; [reflexivity|].
  destruct e; cbn [app addedCircles]; now rewrite IH.
Qed.

Lemma addedCircles_map (l : list School) :
  addedCircles (map (fun s => AddCircleToCluster (builtCircle s)) l) =
    map builtCircle l.
Proof. induction l as [|s l IH]; [reflexivity|]. cbn. now rewrite IH. Qed.

(** X21. The earlier copy of the loader keeps nothing: whatever the
    outcome, it never throws and leaves the school list, the marker table
    and the year as they were.  With a parsed document it adds one circle
    marker per school, in order, up to the first record that cannot be
    rendered. *)
Theorem early_load_keeps_nothing (outcome : FetchOutcome) (app : App) :
  let app' := snd (EarlyLoader.loadSchoolData outcome app) in
  fst (EarlyLoader.loadSchoolData outcome app) = Normal tt /\
  schoolsData app' = schoolsData app /\
  schoolMarkers app' = schoolMarkers app /\
  SCHOOL_DATA_YEAR app' = SCHOOL_DATA_YEAR app /\
  addedCircles (trace app') =
    addedCircles (trace app) ++
    match outcome with
    | Response true _ (Some data) =>
        map builtCircle (renderablePrefix (schools data))
    | _ => []
    end.
Proof.
  destruct outcome as [|[|] status [data|]]; cbv zeta.
  - split; [reflexivity|].
    unfold EarlyLoader.loadSchoolData, Loader.readResponse, catch, bind, throw,
      Loader.onError, emit. cbn.
    repeat (split; [reflexivity|]).
    rewrite !addedCircles_app. cbn [addedCircles]. now rewrite !app_nil_r.
  - rewrite early_load_run. cbn [fst snd logged schoolsData schoolMarkers
                                 SCHOOL_DATA_YEAR trace].
    repeat (split; [reflexivity|]).
    rewrite !addedCircles_app, addedCircles_map.
    change (addedCircles [loadedLine data]) with (@nil CircleMarker).
    assert (Hv : addedCircles (viewEffects data) = [])
      by (unfold viewEffects; destruct (mapConfig data); reflexivity).
    rewrite Hv.
    destruct (forallb renderable (schools data)); cbn [addedCircles failureReport];
      now rewrite !app_nil_l, !app_nil_r.
  - split; [reflexivity|].
    unfold EarlyLoader.loadSchoolData, Loader.readResponse, catch, bind, throw,
      Loader.onError, emit. cbn.
    repeat (split; [reflexivity|]).
    rewrite !addedCircles_app. cbn [addedCircles]. now rewrite !app_nil_r.
  - split; [reflexivity|].
    unfold EarlyLoader.loadSchoolData, Loader.readResponse, catch, bind, throw,
      Loader.onError, emit. cbn.
    repeat (split; [reflexivity|]).
    rewrite !addedCircles_app. cbn [addedCircles]. now rewrite !app_nil_r.
  - split; [reflexivity|].
    unfold EarlyLoader.loadSchoolData, Loader.readResponse, catch, bind, throw,
      Loader.onError, emit. cbn.
    repeat (split; [reflexivity|]).
    rewrite !addedCircles_app. cbn [addedCircles]. now rewrite !app_nil_r.
Qed.

End LoaderMore.

(** ** The legend *)

Section LegendFacts.
Import Legend.

Lemma step_keeps_colour (l : Legend) (e : Event) :
  (panelDisplay l = "block" <-> buttonColor l = "#357ae8") ->
  (panelDisplay (step l e) = "block" <-> buttonColor (step l e) = "#357ae8").
Proof.
  intros H. destruct e as [| | |outside]; cbn [step].
  - unfold legendOpen.
    destruct (String.eqb (panelDisplay l) "block"); cbn;
      split; intros E; try reflexivity; discriminate E.
  - cbn. split; intros E; discriminate E.
  - unfold timerFires. destruct (pendingTimers l); [exact H|]. exact H.
  - unfold documentClick, legendOutsideHandler.
    destruct (outsideListener l); [|exact H].
    destruct outside; [|exact H].
    cbn. split; intros E; discriminate E.
Qed.

(** X22. The legend button and panel stay in step: after any sequence
    of button clicks, closings, timer callbacks and document clicks, the
    panel is displayed exactly when the button has its active colour.
    The button toggles the panel, and a click outside the box leaves no
    click listener behind.  Closing the panel before the zero-delay timer
    has run does not cancel the timer: the listener is then registered
    although the panel is closed. *)
Theorem legend_button_and_panel (l0 : Legend) (events : list Event) :
  (panelDisplay l0 = "block" <-> buttonColor l0 = "#357ae8") ->
  let l := fold_left step events l0 in
  (panelDisplay l = "block" <-> buttonColor l = "#357ae8") /\
  (panelDisplay (legendOpen l) = "block" <-> panelDisplay l <> "block") /\
  outsideListener (documentClick true l) = false /\
  (panelDisplay l <> "block" ->
   panelDisplay (timerFires (legendOpen (legendOpen l))) = "none" /\
   outsideListener (timerFires (legendOpen (legendOpen l))) = true).
Proof.
  intros H0 l.
  assert (Hl : panelDisplay l = "block" <-> buttonColor l = "#357ae8").
  { unfold l. clear l. revert l0 H0.
    induction events as [|e events IH]; intros l0 H0; [exact H0|].
    cbn [fold_left]. apply IH. now apply step_keeps_colour. }
  split; [exact Hl|]. split; [|split].
  - unfold legendOpen.
    destruct (String.eqb_spec (panelDisplay l) "block") as [E|E]; cbn.
    + split; [discriminate | congruence].
    + split; [intros _; exact E | reflexivity].
  - unfold documentClick, legendOutsideHandler.
    destruct (outsideListener l) eqn:E; [reflexivity | exact E].
  - intros Hclosed.
    assert (Hopen : legendOpen l =
              {| panelDisplay := "block"; buttonColor := "#357ae8";
                 outsideListener := outsideListener l;
                 pendingTimers := S (pendingTimers l) |}).
    { unfold legendOpen.
      destruct (String.eqb_spec (panelDisplay l) "block") as [E|_];
        [congruence | reflexivity]. }
    rewrite Hopen. split; reflexivity.
Qed.

Lemma legend_button_and_panel_witness :
  panelDisplay
    (fold_left step [ButtonClicked; TimerFired; DocumentClicked true]
       Samples.closedLegend) = "none" /\
  outsideListener
    (timerFires (legendOpen (legendOpen Samples.closedLegend))) = true.
Proof.
  destruct (legend_button_and_panel Samples.closedLegend [])
    as [_ [_ [_ Hleak]]].
  - split; intros E; discriminate E.
  - split; [reflexivity|]. apply Hleak. discriminate.
Defined.

End LegendFacts.

(** ** The search box *)

Section SearchBoxFacts.
Context {host : Host}.

Lemma append_empty_inv (a b : string) : a +:+ b = "" -> a = "".
Proof. destruct a; [reflexivity|]. rewrite append_cons. discriminate. Qed.

Lemma resultsMarkup_nonempty (query : string) (matching : list School) :
  Search.resultsMarkup query matching <> "".
Proof.
  unfold Search.resultsMarkup. destruct matching as [|s rest].
  - cbn [length Nat.ltb Nat.leb]. intros H. vm_compute in H. discriminate H.
  - cbn [length Nat.ltb Nat.leb].
    destruct (Search.maxResults <=? length rest)%nat.
    + intros H.
      pose proof (endsWith_skip
                    (readInnerHTML (Js.join (Search.resultRows query (s :: rest))))
                    _ " " (moreResults_ends (S (length rest)))) as Hend.
      rewrite H in Hend. vm_compute in Hend. discriminate Hend.
    + unfold Search.resultRows, Search.resultsToShow, Search.maxResults.
      cbn [firstn map Js.join fold_right]. intros H.
      apply append_empty_inv in H. unfold Search.resultRow in H.
      apply append_empty_inv in H. vm_compute in H. discriminate H.
Qed.

(** What holds of the search box at all times. *)
Definition boxInvariant (data : list School) (ui : Search.SearchUi) : Prop :=
  (Search.resultsVisible ui = true ->
   (2 <= Js.jsLength (trim (Search.inputValue ui)))%nat) /\
  ((2 <= Js.jsLength (trim (Search.inputValue ui)))%nat ->
   Search.resultsHtml ui =
     Search.resultsMarkup (trim (Search.inputValue ui))
       (Search.matchingSchools (trim (Search.inputValue ui)) data)).

Lemma step_keeps_box (data : list School) (ui : Search.SearchUi)
    (e : SearchBox.Event) :
  (Js.jsLength (trim "") < 2)%nat ->
  boxInvariant data ui -> boxInvariant data (SearchBox.step data ui e).
Proof.
  intros Hempty [Hvis Hlong]. destruct e as [value| |inside| |]; cbn [SearchBox.step].
  - unfold Search.onInput. cbv zeta.
    destruct (Nat.leb_spec 2 (Js.jsLength (trim value))) as [Hge|Hlt].
    + unfold Search.performSearch. cbn. split; [intros _; exact Hge | reflexivity].
    + split; cbn; [discriminate | intros H; lia].
  - unfold SearchBox.onClear. split; cbn; [discriminate | intros H; lia].
  - unfold SearchBox.onDocumentClick. destruct inside; cbn [negb].
    + split; assumption.
    + split; cbn; [discriminate | exact Hlong].
  - unfold SearchBox.onInputClick.
    destruct (Nat.leb_spec 2 (Js.jsLength (trim (Search.inputValue ui))))
      as [Hge|Hlt].
    + split; cbn; [intros _; exact Hge | exact Hlong].
    + split; assumption.
  - unfold SearchBox.onResultClick. split; cbn; [discriminate | intros H; lia].
Qed.

(** X11. The result box never shows stale or empty results: after any
    sequence of typing, clearing and clicking (in the input, on a result,
    anywhere in the document), whenever the result container is visible
    the input holds at least two characters after trimming, and the
    container holds what a search for that trimmed text gives over the
    data set, which is never the empty string. *)
Theorem result_box_shows_current_search
    (data : list School) (events : list SearchBox.Event) (ui : Search.SearchUi) :
  (Js.jsLength (trim "") < 2)%nat ->
  Search.resultsVisible ui = false ->
  Search.inputValue ui = "" ->
  let final := fold_left (SearchBox.step data) events ui in
  Search.resultsVisible final = true ->
  (2 <= Js.jsLength (trim (Search.inputValue final)))%nat /\
  Search.resultsHtml final =
    Search.resultsMarkup (trim (Search.inputValue final))
      (Search.matchingSchools (trim (Search.inputValue final)) data) /\
  Search.resultsHtml final <> "".
Proof.
  intros Hempty Hhidden Hvalue.
  assert (Hinv : boxInvariant data ui).
  { split; [rewrite Hhidden; discriminate | rewrite Hvalue; intros H; lia]. }
  clear Hhidden Hvalue. revert ui Hinv.
  induction events as [|e events IH]; intros ui Hinv.
  - cbn [fold_left]. intros Hshown. destruct Hinv as [Hvis Hlong].
    split; [now apply Hvis|]. split; [now apply Hlong, Hvis|].
    rewrite (Hlong (Hvis Hshown)). apply resultsMarkup_nonempty.
  - cbn [fold_left]. apply IH. now apply step_keeps_box.
Qed.

End SearchBoxFacts.

Lemma result_box_shows_current_search_witness :
  let final :=
    fold_left (@SearchBox.step AsciiHost.asciiHost Examples.threeSchools)
      [SearchBox.Typed "os"; SearchBox.DocumentClicked false;
       SearchBox.InputClicked]
      Examples.emptyUi in
  Search.resultsVisible final = true /\
  Search.resultsHtml final <> "".
Proof.
  split; [reflexivity|].
  apply (@result_box_shows_current_search AsciiHost.asciiHost
           Examples.threeSchools
           [SearchBox.Typed "os"; SearchBox.DocumentClicked false;
            SearchBox.InputClicked]
           Examples.emptyUi).
  - vm_compute. lia.
  - reflexivity.
  - reflexivity.
  - reflexivity.
Defined.
